(** * Five-card draw poker: hand evaluator, opponent policy and betting rounds

    A shallow embedding of [Main.py].  Python integers are unbounded and are
    modelled by [Z]; floor division [//] is [Z.div] (divisors are positive
    literals).  Tuples returned by [evaluate_hand] are lists of integers,
    compared lexicographically as Python compares tuples.  Exceptions are
    [None] in the pure part and an [Exn] outcome in the effectful part. *)

From Stdlib Require Import String Ascii.
From Stdlib Require Import ZArith List Bool Lia Arith.
From Stdlib Require Import Permutation.
Import ListNotations.
Open Scope Z_scope.

(** ** Cards and deck utilities *)

(** The keys of [RANK_VALUE], in the order of [RANKS]. *)
Inductive rank_str : Type :=
  | R2 | R3 | R4 | R5 | R6 | R7 | R8 | R9 | R10 | RJ | RQ | RK | RA.

(** The four characters of [SUITS]. *)
Inductive suit_chr : Type := Spade | Heart | Diamond | Club.

(** A card is the string [r + s]; the two components are kept apart. *)
Definition card : Type := (rank_str * suit_chr)%type.

Definition RANKS : list rank_str :=
  [R2; R3; R4; R5; R6; R7; R8; R9; R10; RJ; RQ; RK; RA].

Definition SUITS : list suit_chr := [Spade; Heart; Diamond; Club].

Definition RANK_VALUE (r : rank_str) : Z :=
  match r with
  | R2 => 2 | R3 => 3 | R4 => 4 | R5 => 5 | R6 => 6 | R7 => 7 | R8 => 8
  | R9 => 9 | R10 => 10 | RJ => 11 | RQ => 12 | RK => 13 | RA => 14
  end.

Definition suit_eq_dec (a b : suit_chr) : {a = b} + {a <> b}.
Proof. decide equality. Defined.

Definition make_deck : list card :=
  flat_map (fun r => map (fun s => (r, s)) SUITS) RANKS.

Definition card_rank (c : card) : Z := RANK_VALUE (fst c).
Definition card_suit (c : card) : suit_chr := snd c.

(** [deck.pop()]: the last element leaves the list. *)
Definition list_pop {A} (l : list A) : option (A * list A) :=
  match rev l with
  | [] => None
  | x :: r => Some (x, rev r)
  end.

(** ** Sorting and small dictionaries *)

(** [sorted(xs, reverse=True)] on integers. *)
Fixpoint insert_desc (x : Z) (l : list Z) : list Z :=
  match l with
  | [] => [x]
  | y :: l' => if y <? x then x :: l else y :: insert_desc x l'
  end.

Fixpoint sorted_desc (l : list Z) : list Z :=
  match l with
  | [] => []
  | x :: l' => insert_desc x (sorted_desc l')
  end.

(** Python's order on pairs [(cnt, r)]. *)
Definition pair_ltb (a b : Z * Z) : bool :=
  (fst a <? fst b) || ((fst a =? fst b) && (snd a <? snd b)).

Fixpoint insert_pair_desc (x : Z * Z) (l : list (Z * Z)) : list (Z * Z) :=
  match l with
  | [] => [x]
  | y :: l' => if pair_ltb y x then x :: l else y :: insert_pair_desc x l'
  end.

Fixpoint sorted_pairs_desc (l : list (Z * Z)) : list (Z * Z) :=
  match l with
  | [] => []
  | x :: l' => insert_pair_desc x (sorted_pairs_desc l')
  end.

(** A [Dict[int, int]] in insertion order. *)
Definition dict : Type := list (Z * Z).

Fixpoint dict_get (d : dict) (k : Z) (dflt : Z) : Z :=
  match d with
  | [] => dflt
  | (k', v) :: d' => if k' =? k then v else dict_get d' k dflt
  end.

Fixpoint dict_set (d : dict) (k v : Z) : dict :=
  match d with
  | [] => [(k, v)]
  | (k', v') :: d' => if k' =? k then (k', v) :: d' else (k', v') :: dict_set d' k v
  end.

(** [for r in ranks: counts[r] = counts.get(r, 0) + 1] *)
Definition count_ranks (ranks : list Z) : dict :=
  fold_left (fun d r => dict_set d r (dict_get d r 0 + 1)) ranks [].

(** [max(...)] of a generator; [None] is the [ValueError] on an empty one. *)
Definition list_max (l : list Z) : option Z :=
  match l with
  | [] => None
  | x :: l' => Some (fold_left Z.max l' x)
  end.

Definition mem (x : Z) (l : list Z) : bool := existsb (Z.eqb x) l.

(** ** Hand evaluation *)

(** The scan of [_is_straight] over the windows [unique[i:i+5]]. *)
Fixpoint first_window (l : list Z) (n : nat) : option Z :=
  match n with
  | O => None
  | S n' =>
      match l with
      | [] => None
      | w0 :: l' =>
          match nth_error l 4 with
          | Some w4 => if w0 - w4 =? 4 then Some w0 else first_window l' n'
          | None => first_window l' n'
          end
      end
  end.

Definition _is_straight (unique_desc_ranks : list Z) : bool * Z :=
  if (length unique_desc_ranks <? 5)%nat then (false, 0)
  else
    let best_high := first_window unique_desc_ranks (length unique_desc_ranks - 4) in
    let not_best_high := match best_high with None => true | Some h => h =? 0 end in
    if not_best_high && forallb (fun r => mem r unique_desc_ranks) [14; 5; 4; 3; 2]
    then (true, 5)
    else (match best_high with Some _ => true | None => false end,
          match best_high with Some h => h | None => 0 end).

(** The body of [evaluate_hand] after [ranks] has been sorted and the flush
    test made. *)
Definition evaluate_ranks (ranks : list Z) (is_flush : bool) : option (list Z) :=
  let rank_counts := count_ranks ranks in
  let unique_ranks := sorted_desc (nodup Z.eq_dec ranks) in
  let '(is_straight, straight_high) := _is_straight unique_ranks in
  let groups := sorted_pairs_desc (map (fun rc => (snd rc, fst rc)) rank_counts) in
  let counts_sorted := map fst groups in
  if is_straight && is_flush then Some [8; straight_high]
  else
    match nth_error counts_sorted 0 with
    | None => None
    | Some c0 =>
        if c0 =? 4 then
          match nth_error groups 0 with
          | None => None
          | Some (_, quad_rank) =>
              match list_max (filter (fun r => negb (r =? quad_rank)) ranks) with
              | None => None
              | Some kicker => Some [7; quad_rank; kicker]
              end
          end
        else
          match (if c0 =? 3
                 then match nth_error counts_sorted 1 with
                      | None => None
                      | Some c1 => Some (c1 =? 2)
                      end
                 else Some false) with
          | None => None
          | Some true =>
              match nth_error groups 0, nth_error groups 1 with
              | Some (_, trips_rank), Some (_, pair_rank) =>
                  Some [6; trips_rank; pair_rank]
              | _, _ => None
              end
          | Some false =>
              if is_flush then Some (5 :: sorted_desc ranks)
              else if is_straight then Some [4; straight_high]
              else if c0 =? 3 then
                match nth_error groups 0 with
                | None => None
                | Some (_, trips_rank) =>
                    Some (3 :: trips_rank ::
                          sorted_desc (filter (fun r => negb (r =? trips_rank)) ranks))
                end
              else
                match (if c0 =? 2
                       then match nth_error counts_sorted 1 with
                            | None => None
                            | Some c1 => Some (c1 =? 2)
                            end
                       else Some false) with
                | None => None
                | Some true =>
                    match nth_error groups 0, nth_error groups 1 with
                    | Some (_, g0), Some (_, g1) =>
                        let pair1 := Z.max g0 g1 in
                        let pair2 := Z.min g0 g1 in
                        match list_max (filter (fun r => negb (r =? pair1) && negb (r =? pair2)) ranks) with
                        | None => None
                        | Some kicker => Some [2; pair1; pair2; kicker]
                        end
                    | _, _ => None
                    end
                | Some false =>
                    if c0 =? 2 then
                      match nth_error groups 0 with
                      | None => None
                      | Some (_, pair_rank) =>
                          Some (1 :: pair_rank ::
                                sorted_desc (filter (fun r => negb (r =? pair_rank)) ranks))
                      end
                    else Some (0 :: sorted_desc ranks)
                end
          end
    end.

Definition hand_is_flush (hand : list card) : bool :=
  (length (nodup suit_eq_dec (map card_suit hand)) =? 1)%nat.

Definition evaluate_hand (hand : list card) : option (list Z) :=
  let ranks := sorted_desc (map card_rank hand) in
  evaluate_ranks ranks (hand_is_flush hand).

(** Python's [>] on tuples of integers. *)
Fixpoint tuple_gt (a b : list Z) : bool :=
  match a, b with
  | [], _ => false
  | _ :: _, [] => true
  | x :: a', y :: b' => if x =? y then tuple_gt a' b' else y <? x
  end.

Definition compare_hands (h1 h2 : list card) : option Z :=
  match evaluate_hand h1, evaluate_hand h2 with
  | Some e1, Some e2 =>
      if tuple_gt e1 e2 then Some 1
      else if tuple_gt e2 e1 then Some (-1)
      else Some 0
  | _, _ => None
  end.

(** ** The categories as the specification words them

    Second definition, written from the specification (section 4.1) and not
    from the code: the category is read off the number of occurrences of
    each rank and the flush test, in the stated priority order. *)

Definition rank_values : list Z := [14; 13; 12; 11; 10; 9; 8; 7; 6; 5; 4; 3; 2].

Definition occurrences (ranks : list Z) (r : Z) : nat := count_occ Z.eq_dec ranks r.

Section Categories.
Variable cnt : Z -> nat.
Variable flush : bool.

Definition spec_has_count (k : nat) : bool :=
  existsb (fun r => (cnt r =? k)%nat) rank_values.

(** Five consecutive ranks with no gaps, or the set {14,5,4,3,2}. *)
Definition spec_straight : bool :=
  existsb (fun h => forallb (fun d => (1 <=? cnt (h - d))%nat) [0; 1; 2; 3; 4])
          [14; 13; 12; 11; 10; 9; 8; 7; 6]
  || forallb (fun r => (1 <=? cnt r)%nat) [14; 5; 4; 3; 2].

Definition spec_two_pairs : bool :=
  (2 <=? length (filter (fun r => (cnt r =? 2)%nat) rank_values))%nat.

Definition spec_category : Z :=
  if spec_straight && flush then 8
  else if spec_has_count 4 then 7
  else if spec_has_count 3 && spec_has_count 2 then 6
  else if flush then 5
  else if spec_straight then 4
  else if spec_has_count 3 then 3
  else if spec_two_pairs then 2
  else if spec_has_count 2 then 1
  else 0.
End Categories.

(** All five suits identical. *)
Definition spec_flush (hand : list card) : bool :=
  match map card_suit hand with
  | [] => false
  | s :: rest => forallb (fun s' => if suit_eq_dec s s' then true else false) rest
  end.

Definition hand_category (hand : list card) : Z :=
  spec_category (occurrences (map card_rank hand)) (spec_flush hand).

(** ** Finite enumerations used to decide properties of five-card hands *)

Fixpoint all_lists {A} (n : nat) (vals : list A) : list (list A) :=
  match n with
  | O => [[]]
  | S n' => flat_map (fun v => map (cons v) (all_lists n' vals)) vals
  end.

(** Non-increasing lists of length [n] over a decreasing list of values:
    after [v] is picked, the tail is drawn from [v] and the values below. *)
Fixpoint pick_desc (tails : list Z -> list (list Z)) (vs : list Z) : list (list Z) :=
  match vs with
  | [] => []
  | v :: vs' => map (cons v) (tails vs) ++ pick_desc tails vs'
  end.

Fixpoint desc_lists (n : nat) (vals : list Z) : list (list Z) :=
  match n with
  | O => [[]]
  | S n' => pick_desc (desc_lists n') vals
  end.

Fixpoint desc (l : list Z) : Prop :=
  match l with
  | [] => True
  | x :: l' => Forall (fun y => y <= x) l' /\ desc l'
  end.

Fixpoint strict_desc (l : list Z) : Prop :=
  match l with
  | [] => True
  | x :: l' => Forall (fun y => y < x) l' /\ strict_desc l'
  end.

(** Decidable form of "the code's first tuple component is the category the
    specification assigns". *)
Definition category_agrees (ranks : list Z) (flush : bool) : bool :=
  match evaluate_ranks ranks flush with
  | Some (c :: _) => c =? spec_category (occurrences ranks) flush
  | _ => false
  end.

Definition flush_agrees (suits : list suit_chr) : bool :=
  Bool.eqb (length (nodup suit_eq_dec suits) =? 1)%nat
           (match suits with
            | [] => false
            | s :: rest => forallb (fun s' => if suit_eq_dec s s' then true else false) rest
            end).

(** Decidable form of "a straight that contains an Ace without having it on
    top is the wheel, and its high card is 5". *)
Definition ace_low_only_in_wheel (ranks : list Z) (flush : bool) : bool :=
  match evaluate_ranks ranks flush with
  | Some [c; high] =>
      if ((c =? 4) || (c =? 8)) && mem 14 ranks && negb (high =? 14)
      then (if list_eq_dec Z.eq_dec ranks [14; 5; 4; 3; 2] then true else false)
           && (high =? 5)
      else true
  | _ => true
  end.

(** ** Console text

    A line of input is a [string] whose characters are code points below
    256.  The built-ins used by the program are given on that range. *)

(** [str.isspace] for one character. *)
Definition is_space (c : ascii) : bool :=
  let n := nat_of_ascii c in
  ((9 <=? n) && (n <=? 13) || (28 <=? n) && (n <=? 32) || (n =? 133) || (n =? 160))%nat.

(** A decimal digit, as [int] accepts it. *)
Definition is_decimal (c : ascii) : bool :=
  let n := nat_of_ascii c in ((48 <=? n) && (n <=? 57))%nat.

(** [str.isdigit] for one character: the decimal digits and the superscript
    digits of Latin-1. *)
Definition is_digit_char (c : ascii) : bool :=
  let n := nat_of_ascii c in
  (is_decimal c || (n =? 178) || (n =? 179) || (n =? 185))%nat.

Fixpoint lstrip (cs : list ascii) : list ascii :=
  match cs with
  | c :: cs' => if is_space c then lstrip cs' else cs
  | [] => []
  end.

Definition strip (s : string) : string :=
  string_of_list_ascii (rev (lstrip (rev (lstrip (list_ascii_of_string s))))).

Definition isdigit (s : string) : bool :=
  match list_ascii_of_string s with
  | [] => false
  | cs => forallb is_digit_char cs
  end.

Definition digit_value (c : ascii) : Z := Z.of_nat (nat_of_ascii c) - 48.

(** [int(s)] on a token without surrounding blanks: an optional sign, then
    decimal digits, single underscores allowed between digits.  [None] is
    the [ValueError]. *)
Fixpoint int_digits (acc : Z) (after_digit : bool) (cs : list ascii) : option Z :=
  match cs with
  | [] => if after_digit then Some acc else None
  | c :: cs' =>
      if is_decimal c then int_digits (10 * acc + digit_value c) true cs'
      else if (Ascii.eqb c "_") && after_digit then int_digits acc false cs'
      else None
  end.

Definition py_int (s : string) : option Z :=
  match lstrip (rev (lstrip (rev (list_ascii_of_string s)))) with
  | "+"%char :: cs => int_digits 0 false cs
  | "-"%char :: cs => option_map Z.opp (int_digits 0 false cs)
  | cs => int_digits 0 false cs
  end.

(** [str.split()] with no argument. *)
Fixpoint split_ws (cur : list ascii) (cs : list ascii) : list string :=
  match cs with
  | [] => match cur with [] => [] | _ => [string_of_list_ascii (rev cur)] end
  | c :: cs' =>
      if is_space c
      then match cur with
           | [] => split_ws [] cs'
           | _ => string_of_list_ascii (rev cur) :: split_ws [] cs'
           end
      else split_ws (c :: cur) cs'
  end.

Definition split (s : string) : list string := split_ws [] (list_ascii_of_string s).

(** [str.lower] on the letters A-Z; the other characters of a line do not
    lower to a letter of ["y"] or ["yes"]. *)
Definition lower_char (c : ascii) : ascii :=
  let n := nat_of_ascii c in
  if ((65 <=? n) && (n <=? 90))%nat then ascii_of_nat (n + 32) else c.

Definition lower (s : string) : string :=
  string_of_list_ascii (map lower_char (list_ascii_of_string s)).

(** ** Game state and the machine the program runs on *)

Inductive actor : Type := Player | Ai.

Inductive stage_name : Type := Pre | Post.

(** The action strings of [ai_bet_decision] and of the announcements. *)
Inductive action : Type := Fold | Check | Call | Bet | Raise.

Record GameState : Type := mkGame {
  player_bank : Z;
  ai_bank : Z;
  pot : Z;
  deck : list card;
  player_hand : list card;
  ai_hand : list card;
  round_num : Z
}.

(** The [nonlocal] variables of one [betting_round] call. *)
Record RoundVars : Type := mkRound {
  to_call : Z;
  last_bettor : option actor;
  has_raised : bool
}.

(** What the program prints.  [Announce] stands for the lines that report
    a move (["You call $n."], ["Opponent raises to $n."], ...); [Notice] for
    the lines with a fixed text; prompts passed to [input] are not
    recorded. *)
Inductive move : Type :=
  | Folds | Checks | Calls (n : Z) | Bets (n : Z) | Raises (n : Z).

Inductive event : Type :=
  | Announce (who : actor) (mv : move)
  | ShowHand (who : actor) (hand : list card)
  | ShowBankrolls (you opponent the_pot : Z)
  | FacingBet (amount : Z)
  | Draws (who : actor) (n : nat)
  | HandNumber (n : Z)
  | Showdown (winner : option actor)
  | FinalBankrolls (you opponent : Z)
  | Notice (text : string).

(** The outside world: the lines still to be read, the lines printed (last
    first), and the random module.  [random_floats n] is the numerator [k]
    of the [n]-th value [k / 2^53] returned by [random.random()];
    [shuffles n] is the arrangement left by the [n]-th [random.shuffle]. *)
Record World : Type := mkWorld {
  stdin : list string;
  stdout : list event;
  random_floats : nat -> Z;
  floats_drawn : nat;
  shuffles : nat -> list card;
  shuffles_done : nat
}.

Record Machine : Type := mkMachine {
  game : GameState;
  vars : RoundVars;
  world : World
}.

Inductive outcome (A : Type) : Type :=
  | Ret (a : A) (m : Machine)
  | Eof (m : Machine)
  | Exn (m : Machine)
  | OutOfFuel (m : Machine).
Arguments Ret {A} a m.
Arguments Eof {A} m.
Arguments Exn {A} m.
Arguments OutOfFuel {A} m.

Definition M (A : Type) : Type := Machine -> outcome A.

Definition ret {A} (a : A) : M A := fun m => Ret a m.

Definition bind {A B} (c : M A) (k : A -> M B) : M B :=
  fun m =>
    match c m with
    | Ret a m' => k a m'
    | Eof m' => Eof m'
    | Exn m' => Exn m'
    | OutOfFuel m' => OutOfFuel m'
    end.

Declare Scope prog_scope.
Delimit Scope prog_scope with prog.
Notation "x <- c ;; k" := (bind c (fun x => k))
  (at level 61, c at next level, right associativity) : prog_scope.
Notation "c ;; k" := (bind c (fun _ => k))
  (at level 61, right associativity) : prog_scope.
Open Scope prog_scope.

Definition gets {A} (f : Machine -> A) : M A := fun m => Ret (f m) m.
Definition modify (f : Machine -> Machine) : M unit := fun m => Ret tt (f m).
Definition throw {A} : M A := fun m => Exn m.
Definition out_of_fuel {A} : M A := fun m => OutOfFuel m.

Definition try_some {A} (o : option A) : M A :=
  match o with Some a => ret a | None => throw end.

(** Field updates. *)
Definition with_game (f : GameState -> GameState) (m : Machine) : Machine :=
  mkMachine (f (game m)) (vars m) (world m).
Definition with_vars (f : RoundVars -> RoundVars) (m : Machine) : Machine :=
  mkMachine (game m) (f (vars m)) (world m).
Definition with_world (f : World -> World) (m : Machine) : Machine :=
  mkMachine (game m) (vars m) (f (world m)).

Definition set_player_bank (v : Z) : M unit :=
  modify (with_game (fun g => mkGame v (ai_bank g) (pot g) (deck g)
                                     (player_hand g) (ai_hand g) (round_num g))).
Definition set_ai_bank (v : Z) : M unit :=
  modify (with_game (fun g => mkGame (player_bank g) v (pot g) (deck g)
                                     (player_hand g) (ai_hand g) (round_num g))).
Definition set_pot (v : Z) : M unit :=
  modify (with_game (fun g => mkGame (player_bank g) (ai_bank g) v (deck g)
                                     (player_hand g) (ai_hand g) (round_num g))).
Definition set_deck (v : list card) : M unit :=
  modify (with_game (fun g => mkGame (player_bank g) (ai_bank g) (pot g) v
                                     (player_hand g) (ai_hand g) (round_num g))).
Definition set_player_hand (v : list card) : M unit :=
  modify (with_game (fun g => mkGame (player_bank g) (ai_bank g) (pot g) (deck g)
                                     v (ai_hand g) (round_num g))).
Definition set_ai_hand (v : list card) : M unit :=
  modify (with_game (fun g => mkGame (player_bank g) (ai_bank g) (pot g) (deck g)
                                     (player_hand g) v (round_num g))).
Definition set_round_num (v : Z) : M unit :=
  modify (with_game (fun g => mkGame (player_bank g) (ai_bank g) (pot g) (deck g)
                                     (player_hand g) (ai_hand g) v)).

Definition set_to_call (v : Z) : M unit :=
  modify (with_vars (fun r => mkRound v (last_bettor r) (has_raised r))).
Definition set_last_bettor (v : option actor) : M unit :=
  modify (with_vars (fun r => mkRound (to_call r) v (has_raised r))).
Definition set_has_raised (v : bool) : M unit :=
  modify (with_vars (fun r => mkRound (to_call r) (last_bettor r) v)).

Definition get_player_bank : M Z := gets (fun m => player_bank (game m)).
Definition get_ai_bank : M Z := gets (fun m => ai_bank (game m)).
Definition get_pot : M Z := gets (fun m => pot (game m)).
Definition get_to_call : M Z := gets (fun m => to_call (vars m)).
Definition get_last_bettor : M (option actor) := gets (fun m => last_bettor (vars m)).
Definition get_has_raised : M bool := gets (fun m => has_raised (vars m)).

(** The machine after a line was printed, a line was read, a float was
    drawn, the deck was shuffled. *)
Definition printed (e : event) (m : Machine) : Machine :=
  with_world (fun w => mkWorld (stdin w) (e :: stdout w) (random_floats w)
                               (floats_drawn w) (shuffles w) (shuffles_done w)) m.
Definition after_line (rest : list string) (m : Machine) : Machine :=
  with_world (fun w => mkWorld rest (stdout w) (random_floats w)
                               (floats_drawn w) (shuffles w) (shuffles_done w)) m.
Definition after_float (m : Machine) : Machine :=
  with_world (fun w => mkWorld (stdin w) (stdout w) (random_floats w)
                               (S (floats_drawn w)) (shuffles w) (shuffles_done w)) m.
Definition after_shuffle (m : Machine) : Machine :=
  with_world (fun w => mkWorld (stdin w) (stdout w) (random_floats w)
                               (floats_drawn w) (shuffles w) (S (shuffles_done w))) m.

(** [print(...)] *)
Definition print (e : event) : M unit := modify (printed e).

(** [input(...)]: the next line, or [EOFError] when none is left. *)
Definition input : M string :=
  fun m =>
    match stdin (world m) with
    | [] => Eof m
    | line :: rest => Ret line (after_line rest m)
    end.

(** [random.random()] *)
Definition random_random : M Z :=
  fun m => Ret (random_floats (world m) (floats_drawn (world m))) (after_float m).

(** [random.random() < 0.3]: the double 0.3 is 5404319552844595 / 2^54 and
    the value drawn is k / 2^53. *)
Definition below_0_3 (k : Z) : bool := 2 * k <? 5404319552844595.

(** [shuffle_deck(self.deck)] *)
Definition shuffle_deck : M unit :=
  next <- gets (fun m => shuffles (world m) (shuffles_done (world m)));;
  set_deck next;;
  modify after_shuffle.

(** [deal(deck, n)]: [n] successive [deck.pop()]. *)
Fixpoint deal (n : nat) : M (list card) :=
  match n with
  | O => ret []
  | S n' =>
      d <- gets (fun m => deck (game m));;
      match list_pop d with
      | None => throw
      | Some (c, d') => set_deck d';; cs <- deal n';; ret (c :: cs)
      end
  end.

(** ** Opponent policy *)

Definition enumerate {A} (l : list A) : list (Z * A) :=
  combine (map Z.of_nat (seq 0 (length l))) l.

Fixpoint _find_pair_rank (counts : dict) : Z :=
  match counts with
  | [] => -1
  | (r, c) :: rest => if c =? 2 then r else _find_pair_rank rest
  end.

Definition ai_choose_discards (hand : list card) : option (list Z) :=
  let ranks := map card_rank hand in
  let counts := count_ranks ranks in
  match evaluate_hand hand with
  | Some (eval_rank :: _) =>
      if 2 <=? eval_rank then Some []
      else if eval_rank =? 1 then
        let pair_rank := _find_pair_rank counts in
        Some (map fst (filter (fun ir => negb (snd ir =? pair_rank)) (enumerate ranks)))
      else
        let keep_idxs :=
          map fst (filter (fun ir => RANK_VALUE RQ <=? snd ir) (enumerate ranks)) in
        let keep_idxs :=
          if (2 <? length keep_idxs)%nat then firstn 2 keep_idxs else keep_idxs in
        let discard :=
          filter (fun i => negb (mem i keep_idxs)) (map Z.of_nat (seq 0 (length hand))) in
        let discard := if (3 <? length discard)%nat then firstn 3 discard else discard in
        Some discard
  | _ => None
  end.

Definition is_post (stage : stage_name) : bool :=
  match stage with Post => true | Pre => false end.

Definition ai_bet_decision (stage : stage_name) (hand : list card) (can_raise : bool)
    (to_call ai_bank pot : Z) : M (action * Z) :=
  strength <- try_some (match evaluate_hand hand with
                        | Some (c :: _) => Some c
                        | _ => None
                        end);;
  if 0 <? to_call then
    if 3 <=? strength then
      if can_raise && (to_call <? ai_bank) && (2 <=? pot) then
        let raise_amt := Z.min (ai_bank - to_call) (Z.max 2 (pot / 4)) in
        ret (Raise, Z.max 1 raise_amt)
      else ret (Call, to_call)
    else if strength =? 2 then
      if (to_call <=? Z.max 2 (pot / 3)) || (to_call <=? ai_bank / 6)
      then ret (Call, to_call)
      else ret (Fold, 0)
    else if strength =? 1 then
      if to_call <=? Z.max 1 (pot / 5) then ret (Call, to_call) else ret (Fold, 0)
    else if to_call <=? 1 then
      u <- random_random;;
      if below_0_3 u then ret (Call, to_call) else ret (Fold, 0)
    else ret (Fold, 0)
  else
    if (3 <=? strength) && (0 <? ai_bank) then
      let bet_size := Z.min ai_bank (Z.max 2 (if 0 <? pot then pot / 4 else 2)) in
      ret (Bet, bet_size)
    else if is_post stage && (strength =? 2) then
      ret (Bet, Z.min ai_bank (Z.max 2 (if 0 <? pot then pot / 4 else 2)))
    else ret (Check, 0).

(** ** Game flow *)

(** [GameState()] *)
Definition new_game : GameState := mkGame 50 50 10 [] [] [] 1.

Definition new_hand : M unit :=
  set_pot 10;;
  pb <- get_player_bank;; set_player_bank (pb - 5);;
  ab <- get_ai_bank;; set_ai_bank (ab - 5);;
  set_deck make_deck;;
  shuffle_deck;;
  cards <- deal 5;; set_player_hand cards;;
  cards <- deal 5;; set_ai_hand cards.

Fixpoint get_positive_int (fuel : nat) (max_value : option Z) : M Z :=
  match fuel with
  | O => out_of_fuel
  | S fuel' =>
      line <- input;;
      let raw := strip line in
      if negb (isdigit raw) then
        print (Notice "Please enter a positive whole number.");;
        get_positive_int fuel' max_value
      else
        val <- try_some (py_int raw);;
        if val <=? 0 then
          print (Notice "Number must be above 0.");;
          get_positive_int fuel' max_value
        else if match max_value with Some mx => mx <? val | None => false end then
          print (Notice "Maximum allowed is max_value.");;
          get_positive_int fuel' max_value
        else ret val
  end.

(** Deduplicate while preserving order. *)
Fixpoint dedup (seen : list Z) (idxs : list Z) : list Z :=
  match idxs with
  | [] => []
  | i :: rest => if mem i seen then dedup seen rest else i :: dedup (i :: seen) rest
  end.

Fixpoint all_some {A} (l : list (option A)) : option (list A) :=
  match l with
  | [] => Some []
  | None :: _ => None
  | Some a :: l' => option_map (cons a) (all_some l')
  end.

Fixpoint read_discard_indices (fuel : nat) (num_cards : Z) : M (list Z) :=
  match fuel with
  | O => out_of_fuel
  | S fuel' =>
      line <- input;;
      let raw := strip line in
      if String.eqb raw EmptyString then
        print (Notice "Enter 0 to keep all or specify indexes.");;
        read_discard_indices fuel' num_cards
      else
        let parts := split raw in
        if match parts with [p] => String.eqb p "0" | _ => false end then ret []
        else
          match all_some (map py_int parts) with
          | None =>
              print (Notice "Please enter numbers only.");;
              read_discard_indices fuel' num_cards
          | Some idxs =>
              if existsb (fun i => i <=? 0) idxs then
                print (Notice "All card indexes must be above 0.");;
                read_discard_indices fuel' num_cards
              else if existsb (fun i => num_cards <? i) idxs then
                print (Notice "Card indexes must be between 1 and num_cards.");;
                read_discard_indices fuel' num_cards
              else
                let clean := dedup [] idxs in
                if (3 <? length clean)%nat then
                  print (Notice "You can discard at most 3 cards.");;
                  read_discard_indices fuel' num_cards
                else ret (map (fun i => i - 1) clean)
          end
  end.

Definition get_discard_indices (fuel : nat) (num_cards : Z) : M (list Z) :=
  print (Notice "Enter space-separated card indexes to discard (1 is the first index). Enter 0 to keep all.");;
  read_discard_indices fuel num_cards.

Definition is_actor (a : actor) (o : option actor) : bool :=
  match o, a with
  | Some Player, Player => true
  | Some Ai, Ai => true
  | _, _ => false
  end.

(** The closure [player_turn] of [betting_round]; [return player_turn()]
    is the recursive call. *)
Fixpoint player_turn (fuel : nat) : M bool :=
  match fuel with
  | O => out_of_fuel
  | S fuel' =>
      hand <- gets (fun m => player_hand (game m));;
      print (ShowHand Player hand);;
      pb <- get_player_bank;; ab <- get_ai_bank;; p <- get_pot;;
      print (ShowBankrolls pb ab p);;
      tc <- get_to_call;;
      if 0 <? tc then
        print (FacingBet tc);;
        line <- input;;
        let choice := strip line in
        raised <- get_has_raised;;
        if String.eqb choice "1" then
          pb <- get_player_bank;;
          let call_amt := Z.min pb tc in
          set_player_bank (pb - call_amt);;
          p <- get_pot;; set_pot (p + call_amt);;
          set_to_call (tc - call_amt);;
          set_last_bettor (Some Ai);;
          print (Announce Player (Calls call_amt));;
          ret true
        else if String.eqb choice "2" && negb raised then
          max_raise <- get_player_bank;;
          if max_raise <=? 0 then
            print (Notice "You cannot raise (no chips). Defaulting to call if possible.");;
            player_turn fuel'
          else
            raise_amt <- get_positive_int fuel' (Some max_raise);;
            pb <- get_player_bank;;
            let total := Z.min pb (tc + raise_amt) in
            set_player_bank (pb - total);;
            p <- get_pot;; set_pot (p + total);;
            set_to_call raise_amt;;
            set_has_raised true;;
            set_last_bettor (Some Player);;
            print (Announce Player (Raises raise_amt));;
            ret true
        else if String.eqb choice "3" then
          print (Announce Player Folds);;
          ab <- get_ai_bank;; p <- get_pot;;
          set_ai_bank (ab + p);;
          set_pot 0;;
          ret false
        else
          print (Notice "Invalid choice.");;
          player_turn fuel'
      else
        print (Notice "Options: [1] Check, [2] Bet");;
        line <- input;;
        let choice := strip line in
        if String.eqb choice "1" then
          print (Announce Player Checks);;
          set_last_bettor (Some Player);;
          ret true
        else if String.eqb choice "2" then
          max_bet <- get_player_bank;;
          if max_bet <=? 0 then
            print (Notice "You cannot bet (no chips). Checking instead.");;
            print (Announce Player Checks);;
            set_last_bettor (Some Player);;
            ret true
          else
            bet_amt <- get_positive_int fuel' (Some max_bet);;
            pb <- get_player_bank;; set_player_bank (pb - bet_amt);;
            p <- get_pot;; set_pot (p + bet_amt);;
            set_to_call bet_amt;;
            set_last_bettor (Some Player);;
            print (Announce Player (Bets bet_amt));;
            ret true
        else
          print (Notice "Invalid choice.");;
          player_turn fuel'
  end.

(** The two places where [ai_turn] pays a call. *)
Definition ai_pays_call : M bool :=
  ab <- get_ai_bank;; tc <- get_to_call;;
  let pay := Z.min ab tc in
  set_ai_bank (ab - pay);;
  p <- get_pot;; set_pot (p + pay);;
  set_to_call (tc - pay);;
  set_last_bettor (Some Player);;
  print (Announce Ai (Calls pay));;
  ret true.

(** The closure [ai_turn] of [betting_round]. *)
Definition ai_turn (stage : stage_name) : M bool :=
  raised <- get_has_raised;; tc <- get_to_call;;
  hand <- gets (fun m => ai_hand (game m));;
  ab <- get_ai_bank;; p <- get_pot;;
  decision <- ai_bet_decision stage hand (negb raised) tc ab p;;
  let '(act, amount) := decision in
  if 0 <? tc then
    match act with
    | Fold =>
        print (Announce Ai Folds);;
        pb <- get_player_bank;; p <- get_pot;;
        set_player_bank (pb + p);;
        set_pot 0;;
        ret false
    | Call => ai_pays_call
    | Raise =>
        if negb raised && (tc <? ab) then
          let raise_amt := Z.min (ab - tc) (Z.max 1 amount) in
          let total := tc + raise_amt in
          let pay := Z.min ab total in
          set_ai_bank (ab - pay);;
          p <- get_pot;; set_pot (p + pay);;
          set_to_call raise_amt;;
          set_has_raised true;;
          set_last_bettor (Some Ai);;
          print (Announce Ai (Raises raise_amt));;
          ret true
        else ai_pays_call
    | _ => ai_pays_call
    end
  else
    match act with
    | Bet =>
        if 0 <? ab then
          let bet_amt := Z.min ab (Z.max 1 amount) in
          set_ai_bank (ab - bet_amt);;
          p <- get_pot;; set_pot (p + bet_amt);;
          set_to_call bet_amt;;
          set_last_bettor (Some Ai);;
          print (Announce Ai (Bets bet_amt));;
          ret true
        else
          print (Announce Ai Checks);; set_last_bettor (Some Ai);; ret true
    | _ => print (Announce Ai Checks);; set_last_bettor (Some Ai);; ret true
    end.

(** The [while True] loop of [betting_round]; [ret true] is [break]. *)
Fixpoint betting_loop (fuel : nat) (stage : stage_name) (player_first : bool) : M bool :=
  match fuel with
  | O => out_of_fuel
  | S fuel' =>
      if player_first then
        ok <- player_turn fuel;;
        if negb ok then ret false
        else
          tc <- get_to_call;; lb <- get_last_bettor;;
          if (tc =? 0) && is_actor Player lb then
            ok <- ai_turn stage;;
            if negb ok then ret false
            else
              tc <- get_to_call;;
              if tc =? 0 then ret true else betting_loop fuel' stage player_first
          else
            ok <- ai_turn stage;;
            if negb ok then ret false
            else
              tc <- get_to_call;;
              if tc =? 0 then ret true else betting_loop fuel' stage true
      else
        ok <- ai_turn stage;;
        if negb ok then ret false
        else
          tc <- get_to_call;; lb <- get_last_bettor;;
          if (tc =? 0) && is_actor Ai lb then
            ok <- player_turn fuel;;
            if negb ok then ret false
            else
              tc <- get_to_call;;
              if tc =? 0 then ret true else betting_loop fuel' stage player_first
          else
            ok <- player_turn fuel;;
            if negb ok then ret false
            else
              tc <- get_to_call;;
              if tc =? 0 then ret true else betting_loop fuel' stage player_first
  end.

Definition betting_round (fuel : nat) (stage : stage_name) : M bool :=
  set_to_call 0;;
  set_last_bettor None;;
  set_has_raised false;;
  let player_first := match stage with Pre => true | Post => false end in
  betting_loop fuel stage player_first.

(** [hand.pop(i)]: [None] is the [IndexError]. *)
Definition pop_index (hand : list card) (i : Z) : option (list card) :=
  let n := Z.of_nat (length hand) in
  let j := if i <? 0 then i + n else i in
  if (0 <=? j) && (j <? n)
  then Some (firstn (Z.to_nat j) hand ++ skipn (S (Z.to_nat j)) hand)
  else None.

Fixpoint pop_indices (hand : list card) (idxs : list Z) : option (list card) :=
  match idxs with
  | [] => Some hand
  | i :: rest =>
      match pop_index hand i with
      | None => None
      | Some hand' => pop_indices hand' rest
      end
  end.

Definition draw_phase (fuel : nat) : M unit :=
  hand <- gets (fun m => player_hand (game m));;
  print (ShowHand Player hand);;
  discard_idxs <- get_discard_indices fuel (Z.of_nat (length hand));;
  let discard_idxs := sorted_desc discard_idxs in
  hand <- try_some (pop_indices hand discard_idxs);;
  set_player_hand hand;;
  new_cards <- deal (Z.to_nat (5 - Z.of_nat (length hand)));;
  set_player_hand (hand ++ new_cards);;
  print (Draws Player (length new_cards));;
  print (ShowHand Player (hand ++ new_cards));;
  aih <- gets (fun m => ai_hand (game m));;
  ai_discard <- try_some (ai_choose_discards aih);;
  let ai_discard := sorted_desc ai_discard in
  aih <- try_some (pop_indices aih ai_discard);;
  set_ai_hand aih;;
  ai_new <- deal (Z.to_nat (5 - Z.of_nat (length aih)));;
  set_ai_hand (aih ++ ai_new);;
  print (Draws Ai (length ai_new)).

Definition showdown : M unit :=
  ph <- gets (fun m => player_hand (game m));;
  aih <- gets (fun m => ai_hand (game m));;
  print (ShowHand Player ph);;
  print (ShowHand Ai aih);;
  res <- try_some (compare_hands ph aih);;
  (if 0 <? res then
     print (Showdown (Some Player));;
     pb <- get_player_bank;; p <- get_pot;;
     set_player_bank (pb + p)
   else if res <? 0 then
     print (Showdown (Some Ai));;
     ab <- get_ai_bank;; p <- get_pot;;
     set_ai_bank (ab + p)
   else
     print (Showdown None);;
     p <- get_pot;;
     let half := p / 2 in
     pb <- get_player_bank;; set_player_bank (pb + half);;
     ab <- get_ai_bank;; set_ai_bank (ab + (p - half)));;
  set_pot 0.

Definition play_hand (fuel : nat) : M bool :=
  print (Notice "==================================================");;
  rn <- gets (fun m => round_num (game m));;
  print (HandNumber rn);;
  new_hand;;
  ok <- betting_round fuel Pre;;
  if negb ok then ret true
  else
    draw_phase fuel;;
    ok <- betting_round fuel Post;;
    if negb ok then ret true
    else
      showdown;;
      rn <- gets (fun m => round_num (game m));;
      set_round_num (rn + 1);;
      ret true.

(** The [while] loop of [main]. *)
Fixpoint session_loop (fuel : nat) : M unit :=
  match fuel with
  | O => out_of_fuel
  | S fuel' =>
      pb <- get_player_bank;; ab <- get_ai_bank;;
      if (0 <? pb) && (0 <? ab) then
        keep_playing <- play_hand fuel;;
        if negb keep_playing then ret tt
        else
          pb <- get_player_bank;; ab <- get_ai_bank;;
          if (pb <=? 0) || (ab <=? 0) then ret tt
          else
            line <- input;;
            let ans := lower (strip line) in
            if String.eqb ans "y" || String.eqb ans "yes" || String.eqb ans EmptyString
            then session_loop fuel'
            else ret tt
      else ret tt
  end.

Definition main (fuel : nat) : M unit :=
  print (Notice "Welcome to 5-Card Draw Poker!");;
  print (Notice "You and the opponent each start with $50.");;
  print (Notice "Minimum bet is $5.");;
  modify (with_game (fun _ => new_game));;
  session_loop fuel;;
  pb <- get_player_bank;; ab <- get_ai_bank;;
  print (FinalBankrolls pb ab);;
  if ab <? pb then print (Notice "You come out ahead. Well played!")
  else if pb <? ab then print (Notice "Opponent has the edge this time.")
  else print (Notice "It's a wash. Thanks for playing!").

(** A process before [main] has run: nothing read, nothing printed.  The
    [vars] do not exist until a betting round sets them. *)
Definition boot (lines : list string) (floats : nat -> Z) (decks : nat -> list card)
  : Machine :=
  mkMachine (mkGame 0 0 0 [] [] [] 0) (mkRound 0 None false)
            (mkWorld lines [] floats 0 decks 0).

(** Running the program on the given input with enough fuel for it. *)
Definition run_main (lines : list string) (floats : nat -> Z) (decks : nat -> list card)
  : outcome unit :=
  main (S (length lines)) (boot lines floats decks).

Definition final_machine {A} (o : outcome A) : Machine :=
  match o with
  | Ret _ m | Eof m | Exn m | OutOfFuel m => m
  end.

(** The chips in play. *)
Definition chips (m : Machine) : Z :=
  player_bank (game m) + ai_bank (game m) + pot (game m).

Definition raises_announced (m : Machine) : Z :=
  Z.of_nat (length (filter (fun e => match e with
                                     | Announce _ (Raises _) => true
                                     | _ => false
                                     end) (stdout (world m)))).

Definition lines_left (m : Machine) : nat := length (stdin (world m)).

(** ** Weakest preconditions

    [wp c Q E F m]: running [c] from [m] ends in a result and machine that
    satisfy [Q], or stops on end of input or an exception at a machine that
    satisfies [E], or runs out of fuel at one that satisfies [F]. *)
Definition wp {A} (c : M A) (Q : A -> Machine -> Prop) (E F : Machine -> Prop)
    (m : Machine) : Prop :=
  match c m with
  | Ret a m' => Q a m'
  | Eof m' => E m'
  | Exn m' => E m'
  | OutOfFuel m' => F m'
  end.

(** The invariant of a betting round: [c] chips are in play and [r] raises
    had been announced when the round began. *)
Definition round_inv (c r : Z) (m : Machine) : Prop :=
  chips m = c /\ raises_announced m = r + Z.b2z (has_raised (vars m)).

(** [m'] is [m] after some lines were read, some lines that are not raises
    were printed and some floats were drawn. *)
Definition quiet (m m' : Machine) : Prop :=
  game m' = game m /\ vars m' = vars m
  /\ raises_announced m' = raises_announced m
  /\ (lines_left m' <= lines_left m)%nat.

(** ** Example tables *)

Definition trips_hand : list card :=
  [(R7, Spade); (R7, Heart); (R7, Diamond); (R2, Club); (R9, Spade)].

Definition junk_hand : list card :=
  [(R3, Spade); (R8, Heart); (RJ, Diamond); (R2, Heart); (R5, Spade)].

(** Banks 50/50, pot 10 after the ante, the opponent holds three sevens;
    the human's lines are [lines]. *)
Definition scenario (lines : list string) : Machine :=
  mkMachine (mkGame 50 50 10 [] junk_hand trips_hand 1) (mkRound 0 None false)
            (mkWorld lines [] (fun _ => 0) 0 (fun _ => make_deck) 0).

(** The middle of a round: the opponent has raised 4 on the human's bet, and
    the human types [2] (raise), then [1] (call). *)
Definition raised_table : Machine :=
  mkMachine (mkGame 4 0 96 [] junk_hand trips_hand 1) (mkRound 4 (Some Ai) true)
            (mkWorld ["2"; "1"]%string [Announce Ai (Raises 4)] (fun _ => 0) 0
                     (fun _ => make_deck) 0).

(** The moves announced so far, oldest first. *)
Definition announcements (m : Machine) : list (actor * move) :=
  flat_map (fun e => match e with Announce who mv => [(who, mv)] | _ => [] end)
           (rev (stdout (world m))).

Definition rank_eq_dec (a b : rank_str) : {a = b} + {a <> b}.
Proof. decide equality. Defined.

Definition card_eq_dec (a b : card) : {a = b} + {a <> b}.
Proof. decide equality; [apply suit_eq_dec | apply rank_eq_dec]. Defined.

(** A shuffle that deals [junk_hand] to the human and [trips_hand] to the
    opponent: [deal] pops from the end of the list. *)
Definition example_deck : list card :=
  filter (fun c => if in_dec card_eq_dec c (junk_hand ++ trips_hand) then false else true)
         make_deck
  ++ rev (junk_hand ++ trips_hand).

(** Two hands that tie, and a table at showdown with an odd pot. *)
Definition tie_hand_1 : list card :=
  [(RK, Spade); (R9, Club); (R7, Diamond); (R3, Heart); (R2, Spade)].
Definition tie_hand_2 : list card :=
  [(RK, Heart); (R9, Diamond); (R7, Club); (R3, Spade); (R2, Heart)].
Definition tie_table : Machine :=
  mkMachine (mkGame 40 45 15 [] tie_hand_1 tie_hand_2 1) (mkRound 0 None false)
            (mkWorld [] [] (fun _ => 0) 0 (fun _ => make_deck) 0).

(** A table between two hands: the pot has been paid out. *)
Definition between_hands : Machine :=
  mkMachine (mkGame 55 45 0 [] [] [] 2) (mkRound 0 None false)
            (mkWorld [] [] (fun _ => 0) 0 (fun _ => example_deck) 0).

(** The state [GameState()] builds, on a machine with nothing to read. *)
Definition fresh_table : Machine :=
  mkMachine new_game (mkRound 0 None false)
            (mkWorld [] [] (fun _ => 0) 0 (fun _ => example_deck) 0).

(** The two banks and the pot. *)
Definition stakes (m : Machine) : Z * Z * Z :=
  (player_bank (game m), ai_bank (game m), pot (game m)).

(** The rank of the card at a position of the hand. *)
Definition rank_at (hand : list card) (i : Z) : Z :=
  nth (Z.to_nat i) (map card_rank hand) 0.

Definition positions : list Z := [0; 1; 2; 3; 4].

(** ** Further vocabulary for statements about the program *)

(** [m'] is [m] except possibly for the deck. *)
Definition same_but_deck (m m' : Machine) : Prop :=
  stakes m' = stakes m
  /\ player_hand (game m') = player_hand (game m)
  /\ ai_hand (game m') = ai_hand (game m)
  /\ round_num (game m') = round_num (game m)
  /\ vars m' = vars m
  /\ world m' = world m.

(** The arrangement the next [random.shuffle] will leave. *)
Definition next_shuffle (m : Machine) : list card :=
  shuffles (world m) (shuffles_done (world m)).

(** The tuple layouts written in the comments of [evaluate_hand], read on
    the ranks of the hand sorted high to low: straights carry their high
    card, Four of a Kind the quad rank and the kicker, Full House the trips
    rank and the pair rank, Flush and High Card the five ranks, Three of a
    Kind the trips rank and the two kickers, Two Pair the higher pair, the
    lower pair and the kicker, One Pair the pair rank and the three
    kickers. *)
Definition documented_tuple (ranks : list Z) (t : list Z) : bool :=
  let s := sorted_desc ranks in
  let occ := occurrences s in
  let others r := filter (fun x => negb (x =? r)) s in
  let same (a b : list Z) := if list_eq_dec Z.eq_dec a b then true else false in
  match t with
  | c :: rest =>
      if (c =? 8) || (c =? 4) then
        match rest with
        | [high] =>
            same s [high; high - 1; high - 2; high - 3; high - 4]
            || (high =? 5) && same s [14; 5; 4; 3; 2]
        | _ => false
        end
      else if c =? 7 then
        match rest with
        | [quad_rank; kicker] => (occ quad_rank =? 4)%nat && (occ kicker =? 1)%nat
        | _ => false
        end
      else if c =? 6 then
        match rest with
        | [trips_rank; pair_rank] => (occ trips_rank =? 3)%nat && (occ pair_rank =? 2)%nat
        | _ => false
        end
      else if (c =? 5) || (c =? 0) then same rest s
      else if c =? 3 then
        match rest with
        | trips_rank :: kickers =>
            (occ trips_rank =? 3)%nat && same kickers (others trips_rank)
            && (length kickers =? 2)%nat
        | _ => false
        end
      else if c =? 2 then
        match rest with
        | [high_pair; low_pair; kicker] =>
            (low_pair <? high_pair) && (occ high_pair =? 2)%nat
            && (occ low_pair =? 2)%nat && (occ kicker =? 1)%nat
        | _ => false
        end
      else if c =? 1 then
        match rest with
        | pair_rank :: kickers =>
            (occ pair_rank =? 2)%nat && same kickers (others pair_rank)
            && (length kickers =? 3)%nat
        | _ => false
        end
      else false
  | [] => false
  end.

Definition tuple_documented_on (ranks : list Z) (flush : bool) : bool :=
  match evaluate_ranks ranks flush with
  | Some t => documented_tuple ranks t
  | None => false
  end.

(** [wpx] is [wp] with end of input and exceptions told apart: [Eo] holds
    where [input] found no line, [Ex] where an exception was raised. *)
Definition wpx {A} (c : M A) (Q : A -> Machine -> Prop) (Eo Ex F : Machine -> Prop)
    (m : Machine) : Prop :=
  match c m with
  | Ret a m' => Q a m'
  | Eof m' => Eo m'
  | Exn m' => Ex m'
  | OutOfFuel m' => F m'
  end.

(** A table after the first betting round: hands dealt from [example_deck],
    42 cards left; the human asks to replace the first two cards. *)
Definition draw_table : Machine :=
  mkMachine (mkGame 45 45 10 (firstn 42 example_deck) junk_hand trips_hand 1)
            (mkRound 0 (Some Ai) false)
            (mkWorld ["1 2"]%string [] (fun _ => 0) 0 (fun _ => example_deck) 1).

(** * Properties *)

Example quads_example :
  evaluate_hand [(R9, Spade); (R9, Heart); (R9, Diamond); (R9, Club); (R2, Spade)]
  = Some [7; 9; 2].
Proof. reflexivity. Qed.

Example wheel_example :
  evaluate_hand [(RA, Spade); (R2, Heart); (R3, Diamond); (R4, Club); (R5, Spade)]
  = Some [4; 5].
Proof. reflexivity. Qed.

(** ** Sorting *)

Lemma insert_desc_perm (x : Z) (l : list Z) : Permutation (insert_desc x l) (x :: l).
Proof.
  induction l as [|y l IH]; simpl.
  - reflexivity.
  - destruct (y <? x).
    + reflexivity.
    + rewrite IH. apply perm_swap.
Qed.

Lemma sorted_desc_perm (l : list Z) : Permutation (sorted_desc l) l.
Proof.
  induction l as [|x l IH]; simpl.
  - reflexivity.
  - rewrite insert_desc_perm. now apply perm_skip.
Qed.

Lemma sorted_desc_length (l : list Z) : length (sorted_desc l) = length l.
Proof. apply Permutation_length, sorted_desc_perm. Qed.

Lemma insert_desc_desc (x : Z) (l : list Z) : desc l -> desc (insert_desc x l).
Proof.
  induction l as [|y l IH]; simpl; intros Hd.
  - split; [constructor | exact I].
  - destruct Hd as [Hy Hl]. destruct (y <? x) eqn:E.
    + apply Z.ltb_lt in E. simpl. repeat split; trivial.
      constructor; [lia|]. eapply Forall_impl; [|exact Hy]. simpl. intros; lia.
    + apply Z.ltb_ge in E. simpl. split; [|now apply IH].
      eapply Permutation_Forall; [symmetry; apply insert_desc_perm|].
      now constructor.
Qed.

Lemma sorted_desc_desc (l : list Z) : desc (sorted_desc l).
Proof.
  induction l as [|x l IH]; simpl; [exact I | now apply insert_desc_desc].
Qed.

Lemma desc_perm_eq (l1 l2 : list Z) :
  desc l1 -> desc l2 -> Permutation l1 l2 -> l1 = l2.
Proof.
  revert l2. induction l1 as [|x l1 IH]; intros l2 H1 H2 HP.
  - now apply Permutation_nil in HP.
  - destruct l2 as [|y l2]; [now apply Permutation_sym, Permutation_nil in HP|].
    destruct H1 as [Hx H1], H2 as [Hy H2].
    assert (x = y).
    { assert (In x (y :: l2)) as Ix by (eapply Permutation_in; [exact HP | now left]).
      assert (In y (x :: l1)) as Iy
          by (eapply Permutation_in; [symmetry; exact HP | now left]).
      rewrite Forall_forall in Hx, Hy.
      destruct Ix as [->|Ix]; trivial. destruct Iy as [->|Iy]; trivial.
      specialize (Hx _ Iy). specialize (Hy _ Ix). lia. }
    subst y. f_equal. apply IH; trivial. eapply Permutation_cons_inv, HP.
Qed.

Lemma sorted_desc_ext (l1 l2 : list Z) :
  Permutation l1 l2 -> sorted_desc l1 = sorted_desc l2.
Proof.
  intros HP. apply desc_perm_eq; try apply sorted_desc_desc.
  now rewrite !sorted_desc_perm.
Qed.

(** ** Enumerations are complete *)

Lemma In_all_lists {A} (vals : list A) (l : list A) :
  Forall (fun x => In x vals) l -> In l (all_lists (length l) vals).
Proof.
  induction l as [|x l IH]; simpl; intros HF.
  - now left.
  - inversion HF as [|? ? Hx Hl]; subst. apply in_flat_map. exists x. split; trivial.
    apply in_map. now apply IH.
Qed.

Lemma In_pick_desc (tails : list Z -> list (list Z)) (x : Z) (l : list Z) :
  (forall vals, strict_desc vals -> Forall (fun y => In y vals) l -> In l (tails vals)) ->
  Forall (fun y => y <= x) l ->
  forall vals, strict_desc vals -> In x vals -> Forall (fun y => In y vals) l ->
  In (x :: l) (pick_desc tails vals).
Proof.
  intros Htails Hle vals. induction vals as [|v vs IH]; simpl; intros Hsd Hin Hall.
  - contradiction.
  - destruct Hsd as [Hv Hs]. apply in_or_app. destruct (Z.eq_dec v x) as [->|Hne].
    + left. apply in_map. apply Htails; simpl; auto.
    + right. destruct Hin as [->|Hin]; [congruence|].
      apply IH; trivial.
      rewrite Forall_forall in *. intros y Hy.
      destruct (Hall y Hy) as [<-|]; trivial.
      specialize (Hle _ Hy). specialize (Hv _ Hin). lia.
Qed.

Lemma In_desc_lists (l : list Z) :
  desc l ->
  forall vals, strict_desc vals -> Forall (fun y => In y vals) l ->
  In l (desc_lists (length l) vals).
Proof.
  induction l as [|x l IH]; simpl; intros Hd vals Hs Hall.
  - now left.
  - destruct Hd as [Hx Hd]. inversion Hall as [|? ? Hin Hall']; subst.
    apply In_pick_desc; auto.
Qed.

Lemma strict_desc_rank_values : strict_desc rank_values.
Proof. simpl. repeat (split; [repeat constructor; lia|]). exact I. Qed.

Lemma card_rank_values (c : card) : In (card_rank c) rank_values.
Proof. destruct c as [[] s]; simpl; tauto. Qed.

Lemma sorted_ranks_enumerated (hand : list card) :
  length hand = 5%nat ->
  In (sorted_desc (map card_rank hand)) (desc_lists 5 rank_values).
Proof.
  intros Hlen.
  replace 5%nat with (length (sorted_desc (map card_rank hand)))
    by (now rewrite sorted_desc_length, length_map).
  apply In_desc_lists.
  - apply sorted_desc_desc.
  - apply strict_desc_rank_values.
  - eapply Permutation_Forall; [symmetry; apply sorted_desc_perm|].
    apply Forall_forall. intros y Hy. apply in_map_iff in Hy as [c [<- _]].
    apply card_rank_values.
Qed.

(** ** The evaluator assigns the categories of the specification *)

Lemma existsb_same {A} (f g : A -> bool) (l : list A) :
  (forall x, f x = g x) -> existsb f l = existsb g l.
Proof. intros H. induction l as [|x l IH]; simpl; [|rewrite H, IH]; reflexivity. Qed.

Lemma forallb_same {A} (f g : A -> bool) (l : list A) :
  (forall x, f x = g x) -> forallb f l = forallb g l.
Proof. intros H. induction l as [|x l IH]; simpl; [|rewrite H, IH]; reflexivity. Qed.

Section CategoriesExt.
Variables cnt cnt' : Z -> nat.
Hypothesis same : forall r, cnt r = cnt' r.

Lemma spec_has_count_ext (k : nat) : spec_has_count cnt k = spec_has_count cnt' k.
Proof. apply existsb_same. intros r. now rewrite same. Qed.

Lemma spec_straight_ext : spec_straight cnt = spec_straight cnt'.
Proof.
  unfold spec_straight. f_equal.
  - apply existsb_same. intros h. apply forallb_same. intros d. now rewrite same.
  - apply forallb_same. intros r. now rewrite same.
Qed.

Lemma spec_two_pairs_ext : spec_two_pairs cnt = spec_two_pairs cnt'.
Proof.
  unfold spec_two_pairs. do 2 f_equal. apply filter_ext. intros r. now rewrite same.
Qed.

Lemma spec_category_ext (flush : bool) :
  spec_category cnt flush = spec_category cnt' flush.
Proof.
  unfold spec_category.
  now rewrite !spec_has_count_ext, spec_straight_ext, spec_two_pairs_ext.
Qed.
End CategoriesExt.

Lemma occurrences_sorted (l : list Z) (r : Z) :
  occurrences (sorted_desc l) r = occurrences l r.
Proof.
  unfold occurrences. revert r. apply Permutation_count_occ, sorted_desc_perm.
Qed.

Lemma spec_category_range (cnt : Z -> nat) (flush : bool) :
  0 <= spec_category cnt flush <= 8.
Proof.
  unfold spec_category.
  repeat match goal with |- context [if ?b then _ else _] => destruct b end; lia.
Qed.

Lemma all_suits_listed (s : suit_chr) : In s SUITS.
Proof. destruct s; simpl; tauto. Qed.

Lemma flush_tests_agree (hand : list card) :
  length hand = 5%nat -> spec_flush hand = hand_is_flush hand.
Proof.
  intros Hlen.
  assert (forallb flush_agrees (all_lists 5 SUITS) = true) as Hall
      by (vm_compute; reflexivity).
  rewrite forallb_forall in Hall.
  specialize (Hall (map card_suit hand)).
  unfold flush_agrees in Hall. unfold spec_flush, hand_is_flush.
  symmetry. apply Bool.eqb_prop. apply Hall.
  replace 5%nat with (length (map card_suit hand)) by (now rewrite length_map).
  apply In_all_lists, Forall_forall. intros; apply all_suits_listed.
Qed.

Lemma categories_agree_on_sorted :
  forallb (fun rs => category_agrees rs true && category_agrees rs false)
          (desc_lists 5 rank_values) = true.
Proof. vm_compute. reflexivity. Qed.

Lemma evaluate_hand_head (hand : list card) :
  length hand = 5%nat ->
  exists tie_breakers, evaluate_hand hand = Some (hand_category hand :: tie_breakers).
Proof.
  intros Hlen. pose proof categories_agree_on_sorted as Hall.
  rewrite forallb_forall in Hall.
  specialize (Hall _ (sorted_ranks_enumerated hand Hlen)).
  apply andb_prop in Hall as [Ht Hf].
  unfold hand_category, evaluate_hand. rewrite (flush_tests_agree hand Hlen).
  rewrite <- (spec_category_ext _ _ (occurrences_sorted (map card_rank hand))).
  unfold category_agrees in Ht, Hf.
  destruct (hand_is_flush hand).
  - destruct (evaluate_ranks _ true) as [[|c tb]|]; try discriminate.
    apply Z.eqb_eq in Ht. subst c. now exists tb.
  - destruct (evaluate_ranks _ false) as [[|c tb]|]; try discriminate.
    apply Z.eqb_eq in Hf. subst c. now exists tb.
Qed.

(** C3: on every five-card hand [evaluate_hand] returns a tuple whose first
    component is one of the nine categories 0..8, namely the one that the
    priority order of the specification assigns; a hand that is a straight
    and a flush is a Straight Flush (8), never a Flush (5). *)
Theorem evaluate_hand_category (hand : list card) :
  length hand = 5%nat ->
  (exists tie_breakers,
      evaluate_hand hand = Some (hand_category hand :: tie_breakers))
  /\ 0 <= hand_category hand <= 8
  /\ (spec_straight (occurrences (map card_rank hand)) = true ->
      spec_flush hand = true ->
      exists high, evaluate_hand hand = Some [8; high]).
Proof.
  intros Hlen. split; [now apply evaluate_hand_head|].
  split; [apply spec_category_range|].
  intros Hs Hf. destruct (evaluate_hand_head hand Hlen) as [tb Htb].
  assert (hand_category hand = 8) as H8
      by (unfold hand_category, spec_category; now rewrite Hs, Hf).
  rewrite H8 in Htb. unfold evaluate_hand in *.
  rewrite <- (flush_tests_agree hand Hlen), Hf in *.
  unfold evaluate_ranks in *.
  destruct (_is_straight _) as [st high].
  destruct st; simpl in *.
  - now exists high.
  - exfalso. revert Htb.
    repeat match goal with
           | |- context [match ?x with _ => _ end] => destruct x
           end; intros; congruence.
Qed.

Lemma evaluate_hand_category_witness :
  let hand := [(R10, Heart); (RJ, Heart); (RQ, Heart); (RK, Heart); (RA, Heart)] in
  (exists tie_breakers,
      evaluate_hand hand = Some (hand_category hand :: tie_breakers))
  /\ 0 <= hand_category hand <= 8
  /\ (spec_straight (occurrences (map card_rank hand)) = true ->
      spec_flush hand = true ->
      exists high, evaluate_hand hand = Some [8; high]).
Proof. intros hand. apply (evaluate_hand_category hand). reflexivity. Defined.

(** ** The wheel *)

Lemma evaluate_hand_perm (hand : list card) (ranks : list Z) :
  desc ranks -> Permutation (map card_rank hand) ranks ->
  evaluate_hand hand = evaluate_ranks ranks (hand_is_flush hand).
Proof.
  intros Hd HP. unfold evaluate_hand. f_equal.
  apply desc_perm_eq; trivial; [apply sorted_desc_desc|].
  now rewrite sorted_desc_perm.
Qed.

Lemma mem_In (x : Z) (l : list Z) : In x l -> mem x l = true.
Proof.
  intros H. apply existsb_exists. exists x. split; trivial. apply Z.eqb_refl.
Qed.

Lemma ace_low_on_sorted :
  forallb (fun rs => ace_low_only_in_wheel rs true && ace_low_only_in_wheel rs false)
          (desc_lists 5 rank_values) = true.
Proof. vm_compute. reflexivity. Qed.

Lemma desc_wheel : desc [14; 5; 4; 3; 2].
Proof. simpl. repeat (split; [repeat constructor; lia|]). exact I. Qed.

Lemma desc_six_high : desc [6; 5; 4; 3; 2].
Proof. simpl. repeat (split; [repeat constructor; lia|]). exact I. Qed.

(** C4: a non-flush hand whose ranks are {14,5,4,3,2} is a Straight with
    high card 5; [compare_hands] puts it strictly below any 6-high straight;
    and whenever a straight holds an Ace that is not its high card, the hand
    is that wheel and the high card is 5. *)
Theorem wheel_is_lowest_straight (wheel six : list card) :
  Permutation (map card_rank wheel) [14; 5; 4; 3; 2] ->
  hand_is_flush wheel = false ->
  Permutation (map card_rank six) [6; 5; 4; 3; 2] ->
  evaluate_hand wheel = Some [4; 5]
  /\ compare_hands wheel six = Some (-1)
  /\ compare_hands six wheel = Some 1
  /\ (forall (hand : list card) (c high : Z),
         length hand = 5%nat ->
         evaluate_hand hand = Some [c; high] ->
         c = 4 \/ c = 8 ->
         In 14 (map card_rank hand) ->
         high <> 14 ->
         Permutation (map card_rank hand) [14; 5; 4; 3; 2] /\ high = 5).
Proof.
  intros Hw Hnf Hs.
  assert (evaluate_hand wheel = Some [4; 5]) as Ew
      by (rewrite (evaluate_hand_perm wheel _ desc_wheel Hw), Hnf; reflexivity).
  assert (evaluate_hand six = Some [4; 6] \/ evaluate_hand six = Some [8; 6]) as Es
      by (rewrite (evaluate_hand_perm six _ desc_six_high Hs);
          destruct (hand_is_flush six); [right | left]; reflexivity).
  split; [exact Ew|].
  split; [unfold compare_hands; rewrite Ew; destruct Es as [-> | ->]; reflexivity|].
  split; [unfold compare_hands; rewrite Ew; destruct Es as [-> | ->]; reflexivity|].
  intros hand c high Hlen Hev Hc Hace Hhigh.
  pose proof ace_low_on_sorted as Hall. rewrite forallb_forall in Hall.
  specialize (Hall _ (sorted_ranks_enumerated hand Hlen)).
  unfold evaluate_hand in Hev.
  assert (ace_low_only_in_wheel (sorted_desc (map card_rank hand)) (hand_is_flush hand)
          = true) as Hck
      by (destruct (hand_is_flush hand); apply andb_prop in Hall; tauto).
  unfold ace_low_only_in_wheel in Hck. rewrite Hev in Hck.
  assert (((c =? 4) || (c =? 8)) = true) as Hc'
      by (destruct Hc as [-> | ->]; reflexivity).
  assert ((high =? 14) = false) as Hh' by (now apply Z.eqb_neq).
  rewrite Hc', Hh', mem_In in Hck
    by (eapply Permutation_in; [symmetry; apply sorted_desc_perm | exact Hace]).
  simpl in Hck. apply andb_prop in Hck as [Hl Hh].
  destruct (list_eq_dec Z.eq_dec _ _) as [Heq|]; [|discriminate].
  split; [|now apply Z.eqb_eq].
  rewrite <- Heq. symmetry. apply sorted_desc_perm.
Qed.

Lemma wheel_is_lowest_straight_witness :
  let wheel := [(RA, Spade); (R5, Heart); (R4, Diamond); (R3, Club); (R2, Spade)] in
  let six := [(R6, Club); (R5, Club); (R4, Heart); (R3, Heart); (R2, Diamond)] in
  evaluate_hand wheel = Some [4; 5]
  /\ compare_hands wheel six = Some (-1)
  /\ compare_hands six wheel = Some 1
  /\ (forall (hand : list card) (c high : Z),
         length hand = 5%nat ->
         evaluate_hand hand = Some [c; high] ->
         c = 4 \/ c = 8 ->
         In 14 (map card_rank hand) ->
         high <> 14 ->
         Permutation (map card_rank hand) [14; 5; 4; 3; 2] /\ high = 5).
Proof.
  intros wheel six. apply (wheel_is_lowest_straight wheel six); reflexivity.
Defined.

(** ** Rules of the weakest-precondition calculus *)

Section WpRules.
Context {A B : Type}.
Variables (Q : B -> Machine -> Prop) (E F : Machine -> Prop).

Lemma wp_bind (c : M A) (k : A -> M B) (m : Machine) :
  wp (bind c k) Q E F m = wp c (fun a m' => wp (k a) Q E F m') E F m.
Proof. unfold wp, bind. destruct (c m); reflexivity. Qed.

Lemma wp_ret (b : B) (m : Machine) : wp (ret b) Q E F m = Q b m.
Proof. reflexivity. Qed.

Lemma wp_gets (f : Machine -> B) (m : Machine) : wp (gets f) Q E F m = Q (f m) m.
Proof. reflexivity. Qed.

Lemma wp_throw (m : Machine) : wp throw Q E F m = E m.
Proof. reflexivity. Qed.

Lemma wp_out_of_fuel (m : Machine) : wp out_of_fuel Q E F m = F m.
Proof. reflexivity. Qed.

Lemma wp_try_some (o : option B) (m : Machine) :
  wp (try_some o) Q E F m = match o with Some b => Q b m | None => E m end.
Proof. destruct o; reflexivity. Qed.
End WpRules.

Lemma wp_modify (Q : unit -> Machine -> Prop) (E F : Machine -> Prop)
    (f : Machine -> Machine) (m : Machine) :
  wp (modify f) Q E F m = Q tt (f m).
Proof. reflexivity. Qed.

Lemma wp_mono {A} (c : M A) (Q Q' : A -> Machine -> Prop) (E E' F F' : Machine -> Prop)
    (m : Machine) :
  wp c Q E F m ->
  (forall a m', Q a m' -> Q' a m') ->
  (forall m', E m' -> E' m') ->
  (forall m', F m' -> F' m') ->
  wp c Q' E' F' m.
Proof. unfold wp. destruct (c m); auto. Qed.

Create HintDb prims.

#[local] Hint Unfold get_player_bank get_ai_bank get_pot get_to_call get_last_bettor
  get_has_raised set_player_bank set_ai_bank set_pot set_deck set_player_hand
  set_ai_hand set_round_num set_to_call set_last_bettor set_has_raised print : prims.

(** One step of symbolic execution of a program under [wp]. *)
Ltac wp_step :=
  first
    [ rewrite wp_bind
    | rewrite wp_ret
    | rewrite wp_gets
    | rewrite wp_modify
    | rewrite wp_throw
    | rewrite wp_out_of_fuel
    | rewrite wp_try_some
    | progress cbv beta ].

Ltac wp_branch :=
  match goal with
  | |- wp (if ?b then _ else _) _ _ _ _ => destruct b eqn:?
  | |- wp (match ?x with _ => _ end) _ _ _ _ => destruct x eqn:?
  | |- wp (let '(_, _) := ?x in _) _ _ _ _ => destruct x eqn:?
  | |- match ?x with _ => _ end => destruct x eqn:?
  end.

Ltac wp_input :=
  match goal with
  | |- wp input _ _ _ ?m =>
      unfold wp at 1, input;
      let line := fresh "line" in
      let rest := fresh "rest" in
      let Hin := fresh "Hin" in
      destruct (stdin (world m)) as [|line rest] eqn:Hin; [|cbv beta]
  end.


(** Boolean tests of the program as arithmetic facts. *)
Ltac bools :=
  repeat match goal with
         | H : (_ && _) = true |- _ => apply andb_prop in H; destruct H
         | H : (_ || _) = false |- _ => apply orb_false_elim in H; destruct H
         | H : negb _ = true |- _ => apply negb_true_iff in H
         | H : negb _ = false |- _ => apply negb_false_iff in H
         | H : (_ <? _) = true |- _ => apply Z.ltb_lt in H
         | H : (_ <? _) = false |- _ => apply Z.ltb_ge in H
         | H : (_ <=? _) = true |- _ => apply Z.leb_le in H
         | H : (_ <=? _) = false |- _ => apply Z.leb_gt in H
         | H : (_ =? _) = true |- _ => apply Z.eqb_eq in H
         | H : (_ =? _) = false |- _ => apply Z.eqb_neq in H
         end.

(** ** Betting rounds: chips, raises and progress *)

Section RaisesAnnounced.
Variable m : Machine.

Lemma raises_with_game f : raises_announced (with_game f m) = raises_announced m.
Proof. reflexivity. Qed.

Lemma raises_with_vars f : raises_announced (with_vars f m) = raises_announced m.
Proof. reflexivity. Qed.

Lemma raises_after_line rest : raises_announced (after_line rest m) = raises_announced m.
Proof. reflexivity. Qed.

Lemma raises_after_float : raises_announced (after_float m) = raises_announced m.
Proof. reflexivity. Qed.

Lemma raises_printed e :
  raises_announced (printed e m)
  = raises_announced m
    + match e with Announce _ (Raises _) => 1 | _ => 0 end.
Proof.
  unfold raises_announced, printed. cbn [with_world world stdout filter].
  destruct e as [who [| | | |] | | | | | | | |]; cbn [length]; lia.
Qed.
End RaisesAnnounced.

Create Rewrite HintDb raises.
#[local] Hint Rewrite raises_with_game raises_with_vars raises_after_line
  raises_after_float raises_printed : raises.

(** Evaluates the invariant on a machine built by field updates. *)
Ltac inv_solve :=
  unfold quiet, round_inv, chips, lines_left in *;
  repeat match goal with
         | H : _ /\ _ |- _ => destruct H
         end;
  autorewrite with raises in *;
  cbn [game vars world with_game with_vars with_world printed after_line
       after_float player_bank ai_bank pot to_call has_raised last_bettor
       stdin length Z.b2z] in *;
  repeat match goal with
         | H : game ?x = _ |- _ => rewrite H in *
         | H : vars ?x = _ |- _ => rewrite H in *
         | H : stdin (world ?m) = _ |- _ => rewrite H in *
         end;
  cbn [player_bank ai_bank pot to_call has_raised last_bettor length] in *;
  bools;
  repeat match goal with
         | H : has_raised _ = _ |- _ => rewrite H in *; cbn [Z.b2z] in *
         end;
  repeat match goal with |- _ /\ _ => split end;
  try tauto; try lia.

Lemma quiet_refl (m : Machine) : quiet m m.
Proof. unfold quiet. auto. Qed.

Lemma get_positive_int_ok (mx : option Z) (fuel : nat) :
  forall (m : Machine),
    (lines_left m < fuel)%nat ->
    wp (get_positive_int fuel mx)
       (fun v m' => quiet m m' /\ (lines_left m' < lines_left m)%nat /\ 0 < v
                    /\ match mx with Some x => v <= x | None => True end)
       (quiet m) (fun _ => False) m.
Proof.
  induction fuel as [|fuel IH]; intros m Hf; [lia|].
  cbn [get_positive_int]. wp_step. wp_input; [apply quiet_refl|].
  repeat (wp_step || wp_branch || (progress (autounfold with prims)));
    try (eapply wp_mono; [apply IH; inv_solve| | |tauto];
         intros; inv_solve; destruct mx; tauto).
  all: inv_solve; destruct mx; bools; lia.
Qed.

(** Symbolic execution through the calls whose specification is known. *)
Ltac wp_known IH :=
  match goal with
  | |- wp (get_positive_int _ _) _ _ _ _ =>
      eapply wp_mono;
      [apply get_positive_int_ok | intros ? ? ? | intros ? ? | intros ? []]
  | |- wp (?f _) _ _ _ _ =>
      eapply wp_mono; [apply IH | intros ? ? ? | intros ? ? | intros ? []]
  end.

Ltac wp_go IH :=
  repeat first [ wp_step | wp_branch | wp_input
               | progress (autounfold with prims) | wp_known IH ].

Lemma player_turn_ok (c r : Z) (fuel : nat) :
  forall (m : Machine),
    round_inv c r m -> (lines_left m < fuel)%nat ->
    wp (player_turn fuel)
       (fun ok m' => round_inv c r m' /\ (lines_left m' < lines_left m)%nat
                     /\ (ok = false -> pot (game m') = 0))
       (fun m' => round_inv c r m' /\ (lines_left m' <= lines_left m)%nat)
       (fun _ => False) m.
Proof.
  induction fuel as [|fuel IH]; intros m HI Hf; [lia|].
  cbn [player_turn]. wp_go IH.
  all: inv_solve; discriminate.
Qed.

Lemma wp_random_random (Q : Z -> Machine -> Prop) (E F : Machine -> Prop) (m : Machine) :
  wp random_random Q E F m
  = Q (random_floats (world m) (floats_drawn (world m))) (after_float m).
Proof. reflexivity. Qed.

Lemma ai_bet_decision_quiet (stage : stage_name) (hand : list card) (can_raise : bool)
    (tc ab p : Z) (m : Machine) :
  wp (ai_bet_decision stage hand can_raise tc ab p)
     (fun d m' => quiet m m' /\ lines_left m' = lines_left m
                  /\ (can_raise = false -> fst d <> Raise))
     (quiet m) (fun _ => False) m.
Proof.
  unfold ai_bet_decision.
  repeat first [ wp_step | rewrite wp_random_random | wp_branch ].
  all: cbn [fst]; inv_solve; try discriminate.
  intros; congruence.
Qed.

Lemma ai_turn_ok (c r : Z) (stage : stage_name) (m : Machine) :
  round_inv c r m ->
  wp (ai_turn stage)
     (fun ok m' => round_inv c r m' /\ lines_left m' = lines_left m
                   /\ (ok = false -> pot (game m') = 0))
     (fun m' => round_inv c r m' /\ (lines_left m' <= lines_left m)%nat)
     (fun _ => False) m.
Proof.
  intros HI. unfold ai_turn, ai_pays_call.
  wp_go ai_bet_decision_quiet.
  all: inv_solve; discriminate.
Qed.

Ltac wp_turns c r IH :=
  repeat first
    [ wp_step | wp_branch
    | progress (autounfold with prims)
    | match goal with
      | |- wp (player_turn _) _ _ _ _ =>
          eapply wp_mono;
          [apply (player_turn_ok c r) | intros ? ? ? | intros ? ? | intros ? []]
      | |- wp (ai_turn _) _ _ _ _ =>
          eapply wp_mono;
          [apply (ai_turn_ok c r) | intros ? ? ? | intros ? ? | intros ? []]
      | |- wp (betting_loop _ _ _) _ _ _ _ =>
          eapply wp_mono; [apply IH | intros ? ? ? | intros ? ? | intros ? []]
      end ].

Lemma betting_loop_ok (c r : Z) (stage : stage_name) (fuel : nat) :
  forall (player_first : bool) (m : Machine),
    round_inv c r m -> (lines_left m < fuel)%nat ->
    wp (betting_loop fuel stage player_first)
       (fun ok m' => round_inv c r m' /\ (lines_left m' <= lines_left m)%nat
                     /\ (ok = false -> pot (game m') = 0))
       (fun m' => round_inv c r m' /\ (lines_left m' <= lines_left m)%nat)
       (fun _ => False) m.
Proof.
  induction fuel as [|fuel IH]; intros player_first m HI Hf; [lia|].
  cbn [betting_loop]. wp_turns c r IH.
  all: inv_solve; discriminate.
Qed.

Lemma betting_round_ok (stage : stage_name) (fuel : nat) (m : Machine) :
  (lines_left m < fuel)%nat ->
  wp (betting_round fuel stage)
     (fun ok m' => round_inv (chips m) (raises_announced m) m'
                   /\ (lines_left m' <= lines_left m)%nat
                   /\ (ok = false -> pot (game m') = 0))
     (fun m' => round_inv (chips m) (raises_announced m) m'
                /\ (lines_left m' <= lines_left m)%nat)
     (fun _ => False) m.
Proof.
  intros Hf. unfold betting_round.
  repeat first [ wp_step | progress (autounfold with prims) ].
  eapply wp_mono;
    [apply (betting_loop_ok (chips m) (raises_announced m)) | | | intros ? []].
  all: cbv beta; intros; inv_solve.
Qed.

Section Running.
Context {A B : Type}.
Variables (k : A -> M B) (m : Machine).

Lemma bind_gets (f : Machine -> A) : bind (gets f) k m = k (f m) m.
Proof. reflexivity. Qed.

End Running.

Lemma bind_input {B} (k : string -> M B) (m : Machine) (line : string)
    (rest : list string) :
  stdin (world m) = line :: rest -> bind input k m = k line (after_line rest m).
Proof. intros H. unfold bind, input. now rewrite H. Qed.

Lemma bind_modify {B} (k : unit -> M B) (f : Machine -> Machine) (m : Machine) :
  bind (modify f) k m = k tt (f m).
Proof. reflexivity. Qed.

(** C5: a betting round started with enough fuel for the lines on the input
    never runs out of fuel, and however it ends (completed, folded, end of
    input, exception) the chips in the two banks and the pot add up to what
    they were before the round; after a fold the pot is empty, so the chips
    are all in the banks. *)
Theorem betting_round_conserves_chips (stage : stage_name) (fuel : nat) (m : Machine) :
  (lines_left m < fuel)%nat ->
  match betting_round fuel stage m with
  | Ret completed m' =>
      chips m' = chips m /\ (completed = false -> pot (game m') = 0)
  | Eof m' => chips m' = chips m
  | Exn m' => chips m' = chips m
  | OutOfFuel _ => False
  end.
Proof.
  intros Hf. pose proof (betting_round_ok stage fuel m Hf) as H.
  unfold wp, round_inv in H.
  destruct (betting_round fuel stage m); tauto.
Qed.

Lemma betting_round_conserves_chips_witness :
  match betting_round 4 Pre (scenario ["1"; "1"; "3"]%string) with
  | Ret completed m' =>
      chips m' = 110 /\ (completed = false -> pot (game m') = 0)
  | Eof m' => chips m' = 110
  | Exn m' => chips m' = 110
  | OutOfFuel _ => False
  end.
Proof.
  apply (betting_round_conserves_chips Pre 4 (scenario ["1"; "1"; "3"]%string)).
  vm_compute. lia.
Defined.

(** C6: between the beginning and the end of a betting round at most one
    raise is announced, whatever the two actors do; when a raise has been
    made, the human's choice of a raise is not taken: the turn starts again
    on the next line with the game state and the round variables unchanged;
    and the opponent's policy never answers with a raise when raising is no
    longer allowed. *)
Theorem at_most_one_raise_per_round (stage : stage_name) (fuel : nat) (m : Machine) :
  (lines_left m < fuel)%nat ->
  (raises_announced m
   <= raises_announced (final_machine (betting_round fuel stage m))
   <= raises_announced m + 1)
  /\ (forall (line : string) (rest : list string),
         0 < to_call (vars m) ->
         has_raised (vars m) = true ->
         stdin (world m) = line :: rest ->
         strip line = "2"%string ->
         exists m',
           player_turn (S fuel) m = player_turn fuel m'
           /\ game m' = game m /\ vars m' = vars m
           /\ stdin (world m') = rest
           /\ raises_announced m' = raises_announced m)
  /\ (forall hand tc ab p act amount m',
         ai_bet_decision stage hand false tc ab p m = Ret (act, amount) m' ->
         act <> Raise).
Proof.
  intros Hf. split; [|split].
  - pose proof (betting_round_ok stage fuel m Hf) as H.
    unfold wp, round_inv in H.
    destruct (betting_round fuel stage m) as [ok m'|m'|m'|m']; cbn [final_machine];
      try tauto;
      destruct H as [[_ H] _]; rewrite H; destruct (has_raised (vars m')); cbn; lia.
  - intros line rest Htc Hr Hin Hline.
    eexists. split.
    + apply Z.ltb_lt in Htc. cbn [player_turn]. unfold print.
      autounfold with prims.
      repeat first [ rewrite bind_gets | rewrite bind_modify ].
      cbn [vars printed with_world]. rewrite Htc.
      repeat first [ rewrite bind_gets | rewrite bind_modify ].
      erewrite bind_input by (cbn [world printed with_world stdin]; exact Hin).
      rewrite bind_gets. cbn [vars printed after_line with_world].
      rewrite Hline, Hr. cbn [String.eqb Ascii.eqb Bool.eqb andb negb].
      rewrite bind_modify. reflexivity.
    + cbn. auto.
  - intros hand tc ab p act amount m' Hd.
    pose proof (ai_bet_decision_quiet stage hand false tc ab p m) as H.
    unfold wp in H. rewrite Hd in H. cbn [fst] in H. tauto.
Qed.

Lemma at_most_one_raise_per_round_witness :
  let m := raised_table in
  (raises_announced m
   <= raises_announced (final_machine (betting_round 3 Post m))
   <= raises_announced m + 1)
  /\ (forall (line : string) (rest : list string),
         0 < to_call (vars m) ->
         has_raised (vars m) = true ->
         stdin (world m) = line :: rest ->
         strip line = "2"%string ->
         exists m',
           player_turn 4 m = player_turn 3 m'
           /\ game m' = game m /\ vars m' = vars m
           /\ stdin (world m') = rest
           /\ raises_announced m' = raises_announced m)
  /\ (forall hand tc ab p act amount m',
         ai_bet_decision Post hand false tc ab p m = Ret (act, amount) m' ->
         act <> Raise).
Proof.
  intros m. apply (at_most_one_raise_per_round Post 3 m). vm_compute. lia.
Defined.

Example second_raise_is_not_taken :
  exists m',
    player_turn 3 raised_table = Ret true m'
    /\ announcements m' = [(Ai, Raises 4); (Player, Calls 4)]
    /\ stdout (world m')
       = [Announce Player (Calls 4); FacingBet 4; ShowBankrolls 4 0 96;
          ShowHand Player junk_hand; Notice "Invalid choice."; FacingBet 4;
          ShowBankrolls 4 0 96; ShowHand Player junk_hand; Announce Ai (Raises 4)]
    /\ has_raised (vars m') = true
    /\ stakes m' = (0, 0, 100).
Proof. eexists. vm_compute. repeat split; reflexivity. Qed.

(** ** The opponent's answer to a bet *)

Lemma below_0_3_threshold (k : Z) : below_0_3 k = true <-> k < 2702159776422298.
Proof. unfold below_0_3. rewrite Z.ltb_lt. lia. Qed.

(** C7 as stated fails: with Trips, raising allowed and a bank above the bet,
    the policy calls when the pot is below 2. *)
Lemma raise_not_made_on_small_pot :
  hand_category trips_hand = 3
  /\ ai_bet_decision Pre trips_hand true 1 10 1 (scenario [])
     = Ret (Call, 1) (scenario []).
Proof. split; reflexivity. Qed.

(** C7, amended: facing a bet, on a five-card hand of category [k]:
    Trips or better raises when raising is allowed, the bank exceeds the bet
    and the pot is at least 2, and calls otherwise; Two Pair calls iff the
    bet is at most max(2, pot/3) or at most bank/6, else folds; One Pair
    calls iff the bet is at most max(1, pot/5), else folds; High Card folds,
    except that for a bet of at most 1 it draws a float and calls iff the
    float is below 0.3, which holds for 2702159776422298 of the 2^53 floats. *)
Theorem ai_bet_decision_facing_bet (stage : stage_name) (hand : list card)
    (can_raise : bool) (tc ab p : Z) (m : Machine) :
  length hand = 5%nat ->
  0 < tc ->
  let k := hand_category hand in
  let out := ai_bet_decision stage hand can_raise tc ab p m in
  let u := random_floats (world m) (floats_drawn (world m)) in
  (3 <= k ->
     (can_raise = true /\ tc < ab /\ 2 <= p ->
        out = Ret (Raise, Z.max 1 (Z.min (ab - tc) (Z.max 2 (p / 4)))) m)
     /\ (~ (can_raise = true /\ tc < ab /\ 2 <= p) -> out = Ret (Call, tc) m))
  /\ (k = 2 ->
        (tc <= Z.max 2 (p / 3) \/ tc <= ab / 6 -> out = Ret (Call, tc) m)
        /\ (~ (tc <= Z.max 2 (p / 3) \/ tc <= ab / 6) -> out = Ret (Fold, 0) m))
  /\ (k = 1 ->
        (tc <= Z.max 1 (p / 5) -> out = Ret (Call, tc) m)
        /\ (Z.max 1 (p / 5) < tc -> out = Ret (Fold, 0) m))
  /\ (k = 0 ->
        (tc <= 1 ->
           out = Ret (if below_0_3 u then (Call, tc) else (Fold, 0)) (after_float m))
        /\ (1 < tc -> out = Ret (Fold, 0) m))
  /\ (forall f, below_0_3 f = true <-> f < 2702159776422298).
Proof.
  intros Hlen Htc k out u.
  destruct (evaluate_hand_head hand Hlen) as [tb Hev]. fold k in Hev.
  assert (out = (if 3 <=? k then
                   if can_raise && (tc <? ab) && (2 <=? p)
                   then Ret (Raise, Z.max 1 (Z.min (ab - tc) (Z.max 2 (p / 4)))) m
                   else Ret (Call, tc) m
                 else if k =? 2 then
                   if (tc <=? Z.max 2 (p / 3)) || (tc <=? ab / 6)
                   then Ret (Call, tc) m else Ret (Fold, 0) m
                 else if k =? 1 then
                   if tc <=? Z.max 1 (p / 5) then Ret (Call, tc) m else Ret (Fold, 0) m
                 else if tc <=? 1 then
                   Ret (if below_0_3 u then (Call, tc) else (Fold, 0)) (after_float m)
                 else Ret (Fold, 0) m)) as Hout.
  { unfold out, ai_bet_decision. rewrite Hev. cbn [try_some].
    unfold bind at 1. cbn [ret].
    apply Z.ltb_lt in Htc. rewrite Htc.
    unfold bind, random_random, ret. cbv beta iota.
    destruct (3 <=? k); [destruct (can_raise && _ && _); reflexivity|].
    destruct (k =? 2); [destruct (_ || _); reflexivity|].
    destruct (k =? 1); [destruct (tc <=? Z.max 1 _); reflexivity|].
    destruct (tc <=? 1); [|reflexivity].
    cbv beta. fold u. destruct (below_0_3 u); reflexivity. }
  rewrite Hout. clear Hout Hev. clearbody k u. clear out.
  refine (conj _ (conj _ (conj _ (conj _ below_0_3_threshold))));
    intros; repeat split; intros;
    repeat match goal with
           | |- context [if ?b then _ else _] => destruct b eqn:?
           end;
    try reflexivity; exfalso;
    rewrite ?andb_true_iff, ?andb_false_iff, ?orb_true_iff, ?orb_false_iff,
      ?Z.ltb_lt, ?Z.ltb_ge, ?Z.leb_le, ?Z.leb_gt, ?Z.eqb_eq, ?Z.eqb_neq in *;
    intuition (congruence || lia).
Qed.

Lemma ai_bet_decision_facing_bet_witness :
  let stage := Pre in
  let hand := trips_hand in
  let can_raise := true in
  let tc := 2 in
  let ab := 48 in
  let p := 12 in
  let m := scenario [] in
  let k := hand_category hand in
  let out := ai_bet_decision stage hand can_raise tc ab p m in
  let u := random_floats (world m) (floats_drawn (world m)) in
  (3 <= k ->
     (can_raise = true /\ tc < ab /\ 2 <= p ->
        out = Ret (Raise, Z.max 1 (Z.min (ab - tc) (Z.max 2 (p / 4)))) m)
     /\ (~ (can_raise = true /\ tc < ab /\ 2 <= p) -> out = Ret (Call, tc) m))
  /\ (k = 2 ->
        (tc <= Z.max 2 (p / 3) \/ tc <= ab / 6 -> out = Ret (Call, tc) m)
        /\ (~ (tc <= Z.max 2 (p / 3) \/ tc <= ab / 6) -> out = Ret (Fold, 0) m))
  /\ (k = 1 ->
        (tc <= Z.max 1 (p / 5) -> out = Ret (Call, tc) m)
        /\ (Z.max 1 (p / 5) < tc -> out = Ret (Fold, 0) m))
  /\ (k = 0 ->
        (tc <= 1 ->
           out = Ret (if below_0_3 u then (Call, tc) else (Fold, 0)) (after_float m))
        /\ (1 < tc -> out = Ret (Fold, 0) m))
  /\ (forall f, below_0_3 f = true <-> f < 2702159776422298).
Proof.
  intros stage hand can_raise tc ab p m.
  apply (ai_bet_decision_facing_bet stage hand can_raise tc ab p m);
    [reflexivity | unfold tc; lia].
Defined.

(** ** Showdown and the ante *)

(** C9: when the two hands tie, [showdown] returns normally; the human's
    bank grows by the floor of half the pot and the opponent's by the rest,
    which is one chip more when the pot is odd; the pot is then 0 and the
    chips in play are unchanged. *)
Theorem showdown_tie_splits_pot (m : Machine) :
  compare_hands (player_hand (game m)) (ai_hand (game m)) = Some 0 ->
  match showdown m with
  | Ret _ m' =>
      player_bank (game m') = player_bank (game m) + pot (game m) / 2
      /\ ai_bank (game m') = ai_bank (game m) + (pot (game m) - pot (game m) / 2)
      /\ (Z.odd (pot (game m)) = true ->
          ai_bank (game m') - ai_bank (game m)
          = player_bank (game m') - player_bank (game m) + 1)
      /\ pot (game m') = 0
      /\ chips m' = chips m
  | _ => False
  end.
Proof.
  intros Htie.
  change (wp showdown
            (fun _ m' =>
               player_bank (game m') = player_bank (game m) + pot (game m) / 2
               /\ ai_bank (game m') = ai_bank (game m) + (pot (game m) - pot (game m) / 2)
               /\ (Z.odd (pot (game m)) = true ->
                   ai_bank (game m') - ai_bank (game m)
                   = player_bank (game m') - player_bank (game m) + 1)
               /\ pot (game m') = 0
               /\ chips m' = chips m)
            (fun _ => False) (fun _ => False) m).
  unfold showdown.
  repeat first [ wp_step | progress (autounfold with prims) ].
  cbn [game printed with_world]. rewrite Htie. cbn [Z.ltb Z.compare].
  repeat first [ wp_step | progress (autounfold with prims) ].
  unfold chips.
  cbn [game vars world with_game with_vars with_world printed
       player_bank ai_bank pot].
  repeat split; try lia.
  intros Hodd. apply Z.odd_spec in Hodd. destruct Hodd as [q Hq].
  Z.div_mod_to_equations. lia.
Qed.

Lemma showdown_tie_splits_pot_witness :
  match showdown tie_table with
  | Ret _ m' =>
      player_bank (game m') = 40 + 15 / 2
      /\ ai_bank (game m') = 45 + (15 - 15 / 2)
      /\ (Z.odd 15 = true ->
          ai_bank (game m') - 45 = player_bank (game m') - 40 + 1)
      /\ pot (game m') = 0
      /\ chips m' = chips tie_table
  | _ => False
  end.
Proof. apply (showdown_tie_splits_pot tie_table). reflexivity. Defined.

Lemma wp_final {A} (c : M A) (P : Machine -> Prop) (m : Machine) :
  wp c (fun _ => P) P P m -> P (final_machine (c m)).
Proof. unfold wp. destruct (c m); auto. Qed.

Lemma deal_stakes (n : nat) :
  forall m : Machine,
    wp (deal n) (fun _ m' => stakes m' = stakes m) (fun m' => stakes m' = stakes m)
       (fun _ => False) m.
Proof.
  induction n as [|n IH]; intros m; cbn [deal].
  - now rewrite wp_ret.
  - repeat first [ wp_step | wp_branch | progress (autounfold with prims) ];
      try reflexivity.
    eapply wp_mono; [apply IH | | | intros ? []]; cbv beta; intros;
      repeat first [ wp_step ]; assumption.
Qed.

(** C10 as stated fails: the total is preserved by [new_hand] when the pot
    is 0 on entry, not 10; with the pot at 10, as [GameState()] leaves it,
    ten chips disappear. *)
Lemma total_preserved_with_empty_pot_not_ten :
  (pot (game between_hands) = 0
   /\ chips (final_machine (new_hand between_hands)) = chips between_hands)
  /\ (pot (game fresh_table) = 10
      /\ chips (final_machine (new_hand fresh_table)) <> chips fresh_table).
Proof. vm_compute. repeat split; congruence. Qed.

(** C10, amended: [new_hand] sets the pot to exactly 10 whatever it was and
    takes 5 from each bank; the state built by [GameState()] has 110 chips
    and the first [new_hand] leaves 100; [new_hand] preserves the total of
    banks and pot exactly when the pot is 0 on entry. *)
Theorem new_hand_sets_pot_to_ten (m : Machine) :
  let m' := final_machine (new_hand m) in
  (pot (game m') = 10
   /\ player_bank (game m') = player_bank (game m) - 5
   /\ ai_bank (game m') = ai_bank (game m) - 5)
  /\ (chips m' = chips m <-> pot (game m) = 0)
  /\ chips fresh_table = 110
  /\ match new_hand fresh_table with
     | Ret _ m1 => chips m1 = 100
     | _ => False
     end.
Proof.
  intros m'.
  assert (stakes m' = (player_bank (game m) - 5, ai_bank (game m) - 5, 10)) as Hs.
  { unfold m'. apply wp_final. unfold new_hand, shuffle_deck.
    repeat first
      [ wp_step | progress (autounfold with prims)
      | match goal with
        | |- wp (deal _) _ _ _ _ =>
            eapply wp_mono; [apply deal_stakes | | | intros ? []];
            cbv beta; intros
        end ];
      unfold stakes in *;
      cbn [game world with_game with_world after_shuffle player_bank ai_bank pot] in *;
      congruence. }
  unfold stakes in Hs. injection Hs as Hp Ha Hpot.
  split; [tauto|]. split; [unfold chips; lia|].
  split; [reflexivity | vm_compute; reflexivity].
Qed.

(** ** What the code does after a call, and with a bank below the ante *)

Lemma example_deck_is_a_shuffle : Permutation example_deck make_deck.
Proof.
  apply (Permutation_count_occ card_eq_dec).
  intros [[] []]; vm_compute; reflexivity.
Qed.

(** C1, at the scenario of the specification: banks 50/50, pot 10, the
    human checks, the opponent (Trips) bets 2, the human calls 2.  The call
    does not end the round: the opponent acts again and bets 3, the pot is
    17 and the round waits for another line from the human. *)
Theorem call_is_followed_by_another_bet :
  exists m',
    betting_round 3 Pre (scenario ["1"; "1"]%string) = Eof m'
    /\ announcements m'
       = [(Player, Checks); (Ai, Bets 2); (Player, Calls 2); (Ai, Bets 3)]
    /\ pot (game m') = 17
    /\ to_call (vars m') = 3
    /\ stakes m' = (48, 45, 17).
Proof. eexists. vm_compute. repeat split; reflexivity. Qed.

(** C1, continued: if the human keeps calling, the opponent keeps betting
    until its bank is empty; the round then completes with pot 110. *)
Lemma calling_station_scenario :
  exists m',
    betting_round 10 Pre
      (scenario ["1"; "1"; "1"; "1"; "1"; "1"; "1"; "1"; "1"]%string)
    = Ret true m'
    /\ announcements m'
       = [(Player, Checks); (Ai, Bets 2); (Player, Calls 2); (Ai, Bets 3);
          (Player, Calls 3); (Ai, Bets 5); (Player, Calls 5); (Ai, Bets 7);
          (Player, Calls 7); (Ai, Bets 11); (Player, Calls 11); (Ai, Bets 16);
          (Player, Calls 16); (Ai, Bets 6); (Player, Calls 6); (Ai, Checks)]
    /\ stakes m' = (0, 0, 110).
Proof. eexists. vm_compute. repeat split; reflexivity. Qed.

(** C2, a session in which a bank goes below zero: first hand, the human
    bets 41 of 45, the opponent (Trips) raises, the human folds with 4 chips
    left and asks for another hand; [new_hand] takes the ante of 5. *)
Theorem ante_drives_bank_below_zero :
  Permutation example_deck make_deck
  /\ exists m',
      run_main ["2"; "41"; "3"; "y"]%string (fun _ => 0) (fun _ => example_deck) = Eof m'
      /\ announcements m' = [(Player, Bets 41); (Ai, Raises 4); (Player, Folds)]
      /\ player_bank (game m') = -1
      /\ stakes m' = (-1, 91, 10).
Proof.
  split; [exact example_deck_is_a_shuffle|].
  eexists. vm_compute. repeat split; reflexivity.
Qed.

(** ** The rank dictionary *)

Lemma dict_get_set (d : dict) (k v r : Z) :
  dict_get (dict_set d k v) r 0 = if k =? r then v else dict_get d r 0.
Proof.
  induction d as [|[k' v'] d IH]; simpl.
  - reflexivity.
  - destruct (k' =? k) eqn:Ek; simpl.
    + apply Z.eqb_eq in Ek. subst k'. now destruct (k =? r).
    + rewrite IH. destruct (k' =? r) eqn:Er; trivial.
      apply Z.eqb_eq in Er. subst k'. rewrite Z.eqb_sym in Ek. now rewrite Ek.
Qed.

Lemma keys_dict_set (d : dict) (k v : Z) :
  map fst (dict_set d k v)
  = if mem k (map fst d) then map fst d else map fst d ++ [k].
Proof.
  unfold mem. induction d as [|[k' v'] d IH]; simpl.
  - reflexivity.
  - rewrite (Z.eqb_sym k k'). destruct (k' =? k) eqn:Ek; simpl; trivial.
    rewrite IH. now destruct (existsb (Z.eqb k) (map fst d)).
Qed.

Lemma mem_false (x : Z) (l : list Z) : mem x l = false -> ~ In x l.
Proof.
  unfold mem. intros H Hin.
  assert (existsb (Z.eqb x) l = true) as Ht
      by (apply existsb_exists; exists x; split; [assumption | apply Z.eqb_refl]).
  congruence.
Qed.

Lemma NoDup_keys_dict_set (d : dict) (k v : Z) :
  NoDup (map fst d) -> NoDup (map fst (dict_set d k v)).
Proof.
  intros H. rewrite keys_dict_set. destruct (mem k (map fst d)) eqn:E; trivial.
  apply NoDup_app; trivial.
  - constructor; [intros [] | constructor].
  - intros x Hx [<-|[]]. now apply mem_false in E.
Qed.

Lemma dict_get_In (d : dict) (r c : Z) :
  NoDup (map fst d) -> In (r, c) d -> dict_get d r 0 = c.
Proof.
  induction d as [|[k v] d IH]; simpl; intros Hnd Hin; [contradiction|].
  inversion Hnd as [|? ? Hk Hd]; subst.
  destruct Hin as [Heq|Hin].
  - injection Heq as -> ->. now rewrite Z.eqb_refl.
  - destruct (k =? r) eqn:E; [|now apply IH].
    apply Z.eqb_eq in E. subst k. exfalso. apply Hk.
    apply in_map_iff. now exists (r, c).
Qed.

Lemma In_dict_get (d : dict) (r : Z) :
  dict_get d r 0 <> 0 -> In (r, dict_get d r 0) d.
Proof.
  induction d as [|[k v] d IH]; simpl; intros H; [congruence|].
  destruct (k =? r) eqn:E.
  - apply Z.eqb_eq in E. subst k. now left.
  - right. now apply IH.
Qed.

Lemma count_ranks_fold (l seen : list Z) (d : dict) :
  NoDup (map fst d) ->
  (forall r, dict_get d r 0 = Z.of_nat (occurrences seen r)) ->
  let d' := fold_left (fun d r => dict_set d r (dict_get d r 0 + 1)) l d in
  NoDup (map fst d')
  /\ forall r, dict_get d' r 0 = Z.of_nat (occurrences (seen ++ l) r).
Proof.
  revert seen d. induction l as [|x l IH]; intros seen d Hnd Hget; simpl.
  - rewrite app_nil_r. auto.
  - replace (seen ++ x :: l) with ((seen ++ [x]) ++ l) by (now rewrite <- app_assoc).
    apply IH.
    + now apply NoDup_keys_dict_set.
    + intros r. rewrite dict_get_set, !Hget. unfold occurrences.
      rewrite count_occ_app. simpl.
      destruct (Z.eq_dec x r) as [->|Hne].
      * rewrite Z.eqb_refl. lia.
      * apply Z.eqb_neq in Hne. rewrite Hne. lia.
Qed.

Lemma count_ranks_spec (ranks : list Z) :
  NoDup (map fst (count_ranks ranks))
  /\ forall r, dict_get (count_ranks ranks) r 0 = Z.of_nat (occurrences ranks r).
Proof.
  apply (count_ranks_fold ranks [] []); [constructor | reflexivity].
Qed.

Lemma _find_pair_rank_In (d : dict) (r0 : Z) :
  In (r0, 2) d -> In (_find_pair_rank d, 2) d.
Proof.
  induction d as [|[k v] d IH]; simpl; intros Hin; [contradiction|].
  destruct (v =? 2) eqn:E.
  - apply Z.eqb_eq in E. subst v. now left.
  - right. apply IH. destruct Hin as [Heq|]; trivial.
    injection Heq as -> ->. discriminate.
Qed.

(** [_find_pair_rank] on the dictionary of a hand finds the rank that occurs
    twice, when there is exactly one. *)
Lemma _find_pair_rank_unique (ranks : list Z) (r0 : Z) :
  occurrences ranks r0 = 2%nat ->
  (forall r, occurrences ranks r = 2%nat -> r = r0) ->
  _find_pair_rank (count_ranks ranks) = r0.
Proof.
  intros H2 Huniq. destruct (count_ranks_spec ranks) as [Hnd Hget].
  apply Huniq.
  assert (In (r0, 2) (count_ranks ranks)) as Hin.
  { replace 2 with (dict_get (count_ranks ranks) r0 0) by (rewrite Hget, H2; reflexivity).
    apply In_dict_get. rewrite Hget, H2. discriminate. }
  apply _find_pair_rank_In in Hin.
  apply (dict_get_In _ _ _ Hnd) in Hin. rewrite Hget in Hin. lia.
Qed.

(** ** The discard policy *)

Lemma NoDup_rank_values : NoDup rank_values.
Proof.
  unfold rank_values.
  repeat (constructor; [simpl; intros H; intuition discriminate|]). constructor.
Qed.

Lemma occurrences_rank_values (hand : list card) (r : Z) :
  occurrences (map card_rank hand) r <> 0%nat -> In r rank_values.
Proof.
  intros H. assert (In r (map card_rank hand)) as Hin
      by (apply (count_occ_In Z.eq_dec); unfold occurrences in H; lia).
  apply in_map_iff in Hin as [c [<- _]]. apply card_rank_values.
Qed.

(** In a hand of category One Pair exactly one rank occurs twice. *)
Lemma one_pair_shape (hand : list card) :
  hand_category hand = 1 ->
  exists pair_rank,
    occurrences (map card_rank hand) pair_rank = 2%nat
    /\ forall r, occurrences (map card_rank hand) r = 2%nat -> r = pair_rank.
Proof.
  unfold hand_category, spec_category. set (cnt := occurrences (map card_rank hand)).
  destruct (spec_straight cnt && spec_flush hand); [discriminate|].
  destruct (spec_has_count cnt 4); [discriminate|].
  destruct (spec_has_count cnt 3 && spec_has_count cnt 2); [discriminate|].
  destruct (spec_flush hand); [discriminate|].
  destruct (spec_straight cnt); [discriminate|].
  destruct (spec_has_count cnt 3); [discriminate|].
  destruct (spec_two_pairs cnt) eqn:Etwo; [discriminate|].
  destruct (spec_has_count cnt 2) eqn:Ehas; [|discriminate].
  intros _. unfold spec_has_count in Ehas.
  apply existsb_exists in Ehas as [r0 [Hin0 H0]]. apply Nat.eqb_eq in H0.
  exists r0. split; trivial. intros r Hr.
  destruct (Z.eq_dec r r0) as [|Hne]; trivial. exfalso.
  unfold spec_two_pairs in Etwo. apply Nat.leb_gt in Etwo.
  assert (incl [r; r0] (filter (fun x => (cnt x =? 2)%nat) rank_values)) as Hincl.
  { intros x [<-|[<-|[]]]; apply filter_In; split; trivial.
    - apply (occurrences_rank_values hand). fold cnt. lia.
    - now apply Nat.eqb_eq.
    - now apply Nat.eqb_eq. }
  apply NoDup_incl_length in Hincl; [cbn [length] in Hincl; lia|].
  constructor; [simpl; intuition congruence | constructor; [intros []|constructor]].
Qed.

Lemma five_cards (hand : list card) :
  length hand = 5%nat -> exists c0 c1 c2 c3 c4, hand = [c0; c1; c2; c3; c4].
Proof.
  destruct hand as [|c0 [|c1 [|c2 [|c3 [|c4 [|]]]]]]; try discriminate.
  intros _. now exists c0, c1, c2, c3, c4.
Qed.

(** C8: on a five-card hand [ai_choose_discards] returns the empty list for
    Two Pair or better; for One Pair the positions of the cards whose rank
    is not the rank of the pair; with no pair it keeps the first two cards
    ranked Queen or higher (fewer if the hand has fewer) and returns the
    first three positions of the others.  It never returns more than three
    positions. *)
Theorem ai_choose_discards_policy (hand : list card) :
  length hand = 5%nat ->
  let k := hand_category hand in
  let ranks := map card_rank hand in
  (2 <= k -> ai_choose_discards hand = Some [])
  /\ (k = 1 ->
      exists pair_rank,
        occurrences ranks pair_rank = 2%nat
        /\ (forall r, occurrences ranks r = 2%nat -> r = pair_rank)
        /\ ai_choose_discards hand
           = Some (filter (fun i => negb (rank_at hand i =? pair_rank)) positions))
  /\ (k = 0 ->
      let high := filter (fun i => RANK_VALUE RQ <=? rank_at hand i) positions in
      let keep := firstn 2 high in
      exists d,
        ai_choose_discards hand = Some d
        /\ d = firstn 3 (filter (fun i => negb (mem i keep)) positions)
        /\ length d = 3%nat
        /\ (forall i, In i keep -> ~ In i d))
  /\ (forall d, ai_choose_discards hand = Some d -> (length d <= 3)%nat).
Proof.
  intros Hlen k ranks.
  destruct (evaluate_hand_head hand Hlen) as [tb Hev]. fold k in Hev.
  assert (0 <= k <= 8) as Hrange by apply spec_category_range.
  assert (Hhigh : k = 0 ->
      let high := filter (fun i => RANK_VALUE RQ <=? rank_at hand i) positions in
      let keep := firstn 2 high in
      exists d,
        ai_choose_discards hand = Some d
        /\ d = firstn 3 (filter (fun i => negb (mem i keep)) positions)
        /\ length d = 3%nat
        /\ (forall i, In i keep -> ~ In i d)).
  { intros Hk. unfold ai_choose_discards. rewrite Hev, Hk.
    destruct (five_cards hand Hlen) as (c0 & c1 & c2 & c3 & c4 & ->).
    assert (rank_at [c0; c1; c2; c3; c4] 0 = card_rank c0) as R0 by reflexivity.
    assert (rank_at [c0; c1; c2; c3; c4] 1 = card_rank c1) as R1 by reflexivity.
    assert (rank_at [c0; c1; c2; c3; c4] 2 = card_rank c2) as R2' by reflexivity.
    assert (rank_at [c0; c1; c2; c3; c4] 3 = card_rank c3) as R3' by reflexivity.
    assert (rank_at [c0; c1; c2; c3; c4] 4 = card_rank c4) as R4' by reflexivity.
    unfold positions, enumerate.
    change (map Z.of_nat (seq 0 (length (map card_rank [c0; c1; c2; c3; c4]))))
      with [0; 1; 2; 3; 4].
    change (map Z.of_nat (seq 0 (length [c0; c1; c2; c3; c4]))) with [0; 1; 2; 3; 4].
    cbn [map combine filter fst snd]. rewrite R0, R1, R2', R3', R4'.
    clear R0 R1 R2' R3' R4'.
    destruct (RANK_VALUE RQ <=? card_rank c0), (RANK_VALUE RQ <=? card_rank c1),
      (RANK_VALUE RQ <=? card_rank c2), (RANK_VALUE RQ <=? card_rank c3),
      (RANK_VALUE RQ <=? card_rank c4);
      cbn; (eexists; split; [reflexivity|]; split; [reflexivity|]; split; [reflexivity|]);
      intros i Hi Hd; cbn in Hi, Hd; intuition congruence. }
  assert (Hpair : k = 1 ->
      exists pair_rank,
        occurrences ranks pair_rank = 2%nat
        /\ (forall r, occurrences ranks r = 2%nat -> r = pair_rank)
        /\ ai_choose_discards hand
           = Some (filter (fun i => negb (rank_at hand i =? pair_rank)) positions)).
  { intros Hk. destruct (one_pair_shape hand Hk) as [r0 [H2 Hu]].
    exists r0. split; trivial. split; trivial.
    unfold ai_choose_discards. rewrite Hev, Hk.
    rewrite (_find_pair_rank_unique _ r0 H2 Hu).
    destruct (five_cards hand Hlen) as (c0 & c1 & c2 & c3 & c4 & ->).
    change (2 <=? 1) with false. change (1 =? 1) with true. cbv iota.
    assert (rank_at [c0; c1; c2; c3; c4] 0 = card_rank c0) as R0 by reflexivity.
    assert (rank_at [c0; c1; c2; c3; c4] 1 = card_rank c1) as R1 by reflexivity.
    assert (rank_at [c0; c1; c2; c3; c4] 2 = card_rank c2) as R2' by reflexivity.
    assert (rank_at [c0; c1; c2; c3; c4] 3 = card_rank c3) as R3' by reflexivity.
    assert (rank_at [c0; c1; c2; c3; c4] 4 = card_rank c4) as R4' by reflexivity.
    unfold positions, enumerate.
    change (map Z.of_nat (seq 0 (length (map card_rank [c0; c1; c2; c3; c4]))))
      with [0; 1; 2; 3; 4].
    cbn [map combine filter fst snd]. rewrite R0, R1, R2', R3', R4'.
    destruct (card_rank c0 =? r0), (card_rank c1 =? r0), (card_rank c2 =? r0),
      (card_rank c3 =? r0), (card_rank c4 =? r0); reflexivity. }
  split; [|split; [exact Hpair|split; [exact Hhigh|]]].
  - intros Hk. unfold ai_choose_discards. rewrite Hev.
    apply Z.leb_le in Hk. now rewrite Hk.
  - intros d Hd.
    destruct (Z.le_gt_cases 2 k) as [Hk|Hk].
    + unfold ai_choose_discards in Hd. rewrite Hev in Hd.
      apply Z.leb_le in Hk. rewrite Hk in Hd. injection Hd as <-. simpl. lia.
    + assert (k = 0 \/ k = 1) as [Hk0|Hk1] by lia.
      * destruct (Hhigh Hk0) as (d' & Hd' & _ & Hl & _).
        assert (d = d') as -> by congruence. lia.
      * destruct (Hpair Hk1) as (r0 & H2 & _ & Hd').
        rewrite Hd' in Hd. injection Hd as <-.
        destruct (five_cards hand Hlen) as (c0 & c1 & c2 & c3 & c4 & ->).
        unfold ranks, occurrences in H2. cbn [map] in H2.
        unfold positions. cbn [filter].
        change (rank_at [c0; c1; c2; c3; c4] 0) with (card_rank c0).
        change (rank_at [c0; c1; c2; c3; c4] 1) with (card_rank c1).
        change (rank_at [c0; c1; c2; c3; c4] 2) with (card_rank c2).
        change (rank_at [c0; c1; c2; c3; c4] 3) with (card_rank c3).
        change (rank_at [c0; c1; c2; c3; c4] 4) with (card_rank c4).
        destruct (Z.eqb_spec (card_rank c0) r0), (Z.eqb_spec (card_rank c1) r0),
          (Z.eqb_spec (card_rank c2) r0), (Z.eqb_spec (card_rank c3) r0),
          (Z.eqb_spec (card_rank c4) r0);
          repeat first [ rewrite count_occ_cons_eq in H2 by assumption
                       | rewrite count_occ_cons_neq in H2 by assumption ];
          cbn [count_occ] in H2; cbn [negb length]; lia.
Qed.

Lemma ai_choose_discards_policy_witness :
  let hand := junk_hand in
  let k := hand_category hand in
  let ranks := map card_rank hand in
  (2 <= k -> ai_choose_discards hand = Some [])
  /\ (k = 1 ->
      exists pair_rank,
        occurrences ranks pair_rank = 2%nat
        /\ (forall r, occurrences ranks r = 2%nat -> r = pair_rank)
        /\ ai_choose_discards hand
           = Some (filter (fun i => negb (rank_at hand i =? pair_rank)) positions))
  /\ (k = 0 ->
      let high := filter (fun i => RANK_VALUE RQ <=? rank_at hand i) positions in
      let keep := firstn 2 high in
      exists d,
        ai_choose_discards hand = Some d
        /\ d = firstn 3 (filter (fun i => negb (mem i keep)) positions)
        /\ length d = 3%nat
        /\ (forall i, In i keep -> ~ In i d))
  /\ (forall d, ai_choose_discards hand = Some d -> (length d <= 3)%nat).
Proof. intros hand. apply (ai_choose_discards_policy hand). reflexivity. Defined.

Example discards_of_a_pair :
  ai_choose_discards [(R9, Spade); (RK, Heart); (R9, Diamond); (R2, Club); (RA, Spade)]
  = Some [1; 3; 4].
Proof. reflexivity. Qed.

Example discards_without_high_cards :
  ai_choose_discards junk_hand = Some [0; 1; 2].
Proof. reflexivity. Qed.

Example discards_with_three_high_cards :
  ai_choose_discards [(RQ, Spade); (R3, Heart); (RK, Diamond); (RA, Club); (R5, Spade)]
  = Some [1; 3; 4].
Proof. reflexivity. Qed.

(** * Further properties of the program *)

(** ** The deck *)

Lemma count_occ_make_deck (c : card) : count_occ card_eq_dec make_deck c = 1%nat.
Proof. destruct c as [[] []]; vm_compute; reflexivity. Qed.

Lemma NoDup_make_deck : NoDup make_deck.
Proof.
  apply (NoDup_count_occ card_eq_dec). intros c. rewrite count_occ_make_deck. lia.
Qed.

(** X: [make_deck] builds the 52 cards, each once; a deck that is a
    permutation of it therefore holds no card twice. *)
Theorem make_deck_is_a_full_deck :
  length make_deck = 52%nat
  /\ NoDup make_deck
  /\ (forall c : card, In c make_deck)
  /\ (forall d, Permutation d make_deck -> NoDup d /\ length d = 52%nat).
Proof.
  split; [reflexivity|]. split; [exact NoDup_make_deck|]. split.
  - intros c. apply (count_occ_In card_eq_dec). rewrite count_occ_make_deck. lia.
  - intros d Hd. split.
    + eapply Permutation_NoDup; [symmetry; exact Hd | exact NoDup_make_deck].
    + now rewrite (Permutation_length Hd).
Qed.

Lemma list_pop_app {A} (l : list A) (x : A) : list_pop (l ++ [x]) = Some (x, l).
Proof. unfold list_pop. rewrite rev_app_distr. simpl. now rewrite rev_involutive. Qed.

Lemma same_but_deck_refl (m : Machine) : same_but_deck m m.
Proof. unfold same_but_deck. tauto. Qed.

Lemma deal_takes_from_the_end (cards : list card) :
  forall (rest : list card) (m : Machine),
    deck (game m) = rest ++ rev cards ->
    exists m',
      deal (length cards) m = Ret cards m'
      /\ deck (game m') = rest
      /\ same_but_deck m m'.
Proof.
  induction cards as [|c cards IH]; intros rest m Hdeck; simpl in *.
  - exists m. rewrite app_nil_r in Hdeck. auto using same_but_deck_refl.
  - rewrite app_assoc in Hdeck.
    unfold set_deck. rewrite bind_gets, Hdeck, list_pop_app, bind_modify.
    destruct (IH rest (with_game
                         (fun g => mkGame (player_bank g) (ai_bank g) (pot g)
                                          (rest ++ rev cards) (player_hand g)
                                          (ai_hand g) (round_num g)) m) eq_refl)
      as (m' & Hdeal & Hrest & Hsame).
    exists m'. unfold bind at 1. rewrite Hdeal. cbn [ret].
    split; [reflexivity|]. split; [exact Hrest|].
    unfold same_but_deck, stakes in *. cbn in Hsame. exact Hsame.
Qed.

Lemma deal_from_short_deck (n : nat) :
  forall m : Machine,
    (length (deck (game m)) < n)%nat ->
    exists m', deal n m = Exn m' /\ deck (game m') = [] /\ same_but_deck m m'.
Proof.
  induction n as [|n IH]; intros m Hlen; [lia|]. cbn [deal].
  rewrite bind_gets.
  destruct (deck (game m)) as [|c0 d0] eqn:Hd using rev_ind.
  - exists m. split; [reflexivity|]. split; [exact Hd|apply same_but_deck_refl].
  - clear IHd0. rewrite list_pop_app. unfold set_deck. rewrite bind_modify.
    rewrite length_app in Hlen. simpl in Hlen.
    destruct (IH (with_game
                    (fun g => mkGame (player_bank g) (ai_bank g) (pot g) d0
                                     (player_hand g) (ai_hand g) (round_num g)) m))
      as (m' & Hdeal & Hrest & Hsame); [cbn; lia|].
    exists m'. unfold bind at 1. rewrite Hdeal.
    split; [reflexivity|]. split; [exact Hrest|].
    unfold same_but_deck, stakes in *. cbn in Hsame. exact Hsame.
Qed.

Lemma deal_outcome (n : nat) (m : Machine) :
  let d := deck (game m) in
  ((n <= length d)%nat ->
   exists m',
     deal n m = Ret (rev (skipn (length d - n) d)) m'
     /\ deck (game m') = firstn (length d - n) d
     /\ same_but_deck m m')
  /\ ((length d < n)%nat ->
      exists m', deal n m = Exn m' /\ deck (game m') = [] /\ same_but_deck m m').
Proof.
  intros d. split; [|apply deal_from_short_deck].
  intros Hn.
  assert (length (rev (skipn (length d - n) d)) = n) as Hl
      by (rewrite length_rev, length_skipn; lia).
  destruct (deal_takes_from_the_end (rev (skipn (length d - n) d))
              (firstn (length d - n) d) m) as (m' & Hdeal & Hrest & Hsame).
  { rewrite rev_involutive. symmetry. apply firstn_skipn. }
  rewrite Hl in Hdeal. now exists m'.
Qed.

(** X: [deal(deck, n)] removes the last [n] cards of the deck and returns
    them last card first, touching nothing else; on a deck of fewer than
    [n] cards it raises (the [IndexError] of [pop]) with the deck emptied. *)
Theorem deal_pops_the_last_cards (n : nat) (m : Machine) :
  let d := deck (game m) in
  ((n <= length d)%nat ->
   exists m',
     deal n m = Ret (rev (skipn (length d - n) d)) m'
     /\ deck (game m') = firstn (length d - n) d
     /\ same_but_deck m m')
  /\ ((length d < n)%nat ->
      exists m', deal n m = Exn m' /\ deck (game m') = [] /\ same_but_deck m m').
Proof. exact (deal_outcome n m). Qed.

Lemma wp_of_ret {A} (c : M A) (Q : A -> Machine -> Prop) (E F : Machine -> Prop)
    (m m' : Machine) (a : A) :
  c m = Ret a m' -> Q a m' -> wp c Q E F m.
Proof. intros Hc HQ. unfold wp. now rewrite Hc. Qed.

Lemma wp_returns {A} (c : M A) (Q : A -> Machine -> Prop) (m : Machine) :
  wp c Q (fun _ => False) (fun _ => False) m ->
  exists a m', c m = Ret a m' /\ Q a m'.
Proof. unfold wp. destruct (c m) as [a m'| | |]; try tauto. now exists a, m'. Qed.

(** X: when the shuffle leaves a permutation of the 52 cards, [new_hand]
    returns normally with two hands of five cards and 42 cards in the deck;
    hands and deck together are the 52 cards, so no card is dealt twice. *)
Theorem new_hand_deals_two_disjoint_hands (m : Machine) :
  Permutation (next_shuffle m) make_deck ->
  exists m',
    new_hand m = Ret tt m'
    /\ length (player_hand (game m')) = 5%nat
    /\ length (ai_hand (game m')) = 5%nat
    /\ length (deck (game m')) = 42%nat
    /\ Permutation (player_hand (game m') ++ ai_hand (game m') ++ deck (game m'))
                   make_deck
    /\ NoDup (player_hand (game m') ++ ai_hand (game m')).
Proof.
  intros Hperm.
  assert (length (next_shuffle m) = 52%nat) as Hlen
      by (now rewrite (Permutation_length Hperm)).
  set (d := next_shuffle m) in *.
  enough (wp new_hand
            (fun _ m' =>
               player_hand (game m') = rev (skipn 47 d)
               /\ ai_hand (game m') = rev (skipn 42 (firstn 47 d))
               /\ deck (game m') = firstn 42 (firstn 47 d))
            (fun _ => False) (fun _ => False) m) as Hwp.
  { apply wp_returns in Hwp as ([] & m' & Hrun & Hp & Ha & Hd).
    exists m'. split; [exact Hrun|].
    assert (Permutation (player_hand (game m') ++ ai_hand (game m') ++ deck (game m'))
                        make_deck) as Hall.
    { rewrite Hp, Ha, Hd, <- Hperm, <- !Permutation_rev.
      rewrite (Permutation_app_comm (skipn 42 _)), firstn_skipn.
      rewrite Permutation_app_comm. now rewrite firstn_skipn. }
    split; [rewrite Hp, length_rev, length_skipn; lia|].
    split; [rewrite Ha, length_rev, length_skipn, length_firstn; lia|].
    split; [rewrite Hd, !length_firstn; lia|].
    split; [exact Hall|].
    apply (NoDup_app_remove_r _ (deck (game m'))). rewrite <- app_assoc.
    eapply Permutation_NoDup; [symmetry; exact Hall|].
    apply NoDup_make_deck. }
  unfold new_hand, shuffle_deck.
  repeat first [ wp_step | progress (autounfold with prims) ].
  match goal with |- wp (deal 5) _ _ _ ?m1 =>
    destruct (deal_outcome 5 m1) as [Hdeal _];
    destruct Hdeal as (m2 & Hrun & Hdeck & Hsame);
      [cbn [game world with_game with_world after_shuffle deck];
       change (shuffles (world m) (shuffles_done (world m))) with d; lia|]
  end.
  cbn [game world with_game with_world after_shuffle deck] in Hrun, Hdeck.
  change (shuffles (world m) (shuffles_done (world m))) with d in Hrun, Hdeck.
  rewrite Hlen in Hrun, Hdeck. cbn [Nat.sub] in Hrun, Hdeck.
  eapply wp_of_ret; [exact Hrun|]. clear Hrun.
  repeat first [ wp_step | progress (autounfold with prims) ].
  match goal with |- wp (deal 5) _ _ _ ?m3 =>
    destruct (deal_outcome 5 m3) as [Hdeal _];
    destruct Hdeal as (m4 & Hrun & Hdeck' & Hsame');
      [cbn; rewrite Hdeck, length_firstn; lia|]
  end.
  cbn [game with_game deck] in Hrun, Hdeck'. rewrite Hdeck in Hrun, Hdeck'.
  rewrite length_firstn, Hlen in Hrun, Hdeck'. cbn [Nat.min Nat.sub] in Hrun, Hdeck'.
  eapply wp_of_ret; [exact Hrun|]. clear Hrun.
  repeat first [ wp_step | progress (autounfold with prims) ].
  destruct Hsame' as (_ & Hph & _). cbn in Hph.
  cbn [game with_game player_hand ai_hand deck].
  repeat split; trivial.
Qed.

Lemma new_hand_deals_two_disjoint_hands_witness :
  exists m',
    new_hand (scenario []) = Ret tt m'
    /\ length (player_hand (game m')) = 5%nat
    /\ length (ai_hand (game m')) = 5%nat
    /\ length (deck (game m')) = 42%nat
    /\ Permutation (player_hand (game m') ++ ai_hand (game m') ++ deck (game m'))
                   make_deck
    /\ NoDup (player_hand (game m') ++ ai_hand (game m')).
Proof. apply (new_hand_deals_two_disjoint_hands (scenario [])). reflexivity. Defined.

(** ** The evaluator beyond the category *)

Lemma nodup_length_perm {A} (dec : forall a b : A, {a = b} + {a <> b}) (l l' : list A) :
  Permutation l l' -> length (nodup dec l) = length (nodup dec l').
Proof.
  intros HP. apply Permutation_length. apply NoDup_Permutation.
  - apply NoDup_nodup.
  - apply NoDup_nodup.
  - intros x. rewrite !nodup_In. split; apply Permutation_in; [|symmetry]; exact HP.
Qed.

(** X: the order of the cards in a hand does not matter to [evaluate_hand],
    nor to [compare_hands]. *)
Theorem evaluate_hand_ignores_order (h1 h2 other : list card) :
  Permutation h1 h2 ->
  evaluate_hand h1 = evaluate_hand h2
  /\ compare_hands h1 other = compare_hands h2 other
  /\ compare_hands other h1 = compare_hands other h2.
Proof.
  intros HP.
  assert (evaluate_hand h1 = evaluate_hand h2) as He.
  { unfold evaluate_hand, hand_is_flush. f_equal.
    - apply sorted_desc_ext. now apply Permutation_map.
    - f_equal. apply nodup_length_perm. now apply Permutation_map. }
  unfold compare_hands. now rewrite He.
Qed.

Lemma evaluate_hand_ignores_order_witness :
  let h1 := [(R9, Spade); (RK, Heart); (R9, Diamond); (R2, Club); (RA, Spade)] in
  let h2 := [(RK, Heart); (R9, Spade); (R9, Diamond); (R2, Club); (RA, Spade)] in
  evaluate_hand h1 = evaluate_hand h2
  /\ compare_hands h1 junk_hand = compare_hands h2 junk_hand
  /\ compare_hands junk_hand h1 = compare_hands junk_hand h2.
Proof.
  intros h1 h2. apply (evaluate_hand_ignores_order h1 h2 junk_hand). apply perm_swap.
Defined.

(** Python's order on tuples of integers is a strict total order. *)
Lemma tuple_gt_irrefl (a : list Z) : tuple_gt a a = false.
Proof. induction a as [|x a IH]; simpl; trivial. now rewrite Z.eqb_refl. Qed.

Lemma tuple_gt_asym (a b : list Z) : tuple_gt a b = true -> tuple_gt b a = false.
Proof.
  revert b. induction a as [|x a IH]; intros [|y b]; simpl; try discriminate; trivial.
  rewrite (Z.eqb_sym y x). destruct (x =? y) eqn:E; [apply IH|].
  intros H. apply Z.ltb_lt in H. apply Z.ltb_ge. lia.
Qed.

Lemma tuple_gt_total (a b : list Z) :
  tuple_gt a b = false -> tuple_gt b a = false -> a = b.
Proof.
  revert b. induction a as [|x a IH]; intros [|y b]; simpl; try discriminate; trivial.
  rewrite (Z.eqb_sym y x). destruct (x =? y) eqn:E.
  - apply Z.eqb_eq in E. subst y. intros H1 H2. f_equal. now apply IH.
  - apply Z.eqb_neq in E. intros H1 H2. apply Z.ltb_ge in H1, H2. lia.
Qed.

Lemma tuple_gt_trans (a b c : list Z) :
  tuple_gt a b = true -> tuple_gt b c = true -> tuple_gt a c = true.
Proof.
  revert b c. induction a as [|x a IH]; intros [|y b] [|z c]; simpl;
    try discriminate; trivial.
  destruct (x =? y) eqn:Exy, (y =? z) eqn:Eyz; intros H1 H2.
  - apply Z.eqb_eq in Exy, Eyz. subst. rewrite Z.eqb_refl. now apply (IH b).
  - apply Z.eqb_eq in Exy. subst. now rewrite Eyz.
  - apply Z.eqb_eq in Eyz. subst. now rewrite Exy.
  - apply Z.eqb_neq in Exy, Eyz. apply Z.ltb_lt in H1, H2.
    assert (x <> z) as Exz by lia. apply Z.eqb_neq in Exz. rewrite Exz.
    apply Z.ltb_lt. lia.
Qed.

(** X: whenever [compare_hands] returns, its result is -1, 0 or 1; swapping
    the hands negates it; it is 0 exactly when the two hands evaluate to the
    same tuple; and a five-card hand ties with itself. *)
Theorem compare_hands_is_antisymmetric (h1 h2 : list card) (r : Z) :
  compare_hands h1 h2 = Some r ->
  (r = -1 \/ r = 0 \/ r = 1)
  /\ compare_hands h2 h1 = Some (- r)
  /\ (r = 0 <-> evaluate_hand h1 = evaluate_hand h2)
  /\ compare_hands h1 h1 = Some 0.
Proof.
  unfold compare_hands.
  destruct (evaluate_hand h1) as [e1|] eqn:E1; [|discriminate].
  destruct (evaluate_hand h2) as [e2|] eqn:E2; [|discriminate].
  rewrite tuple_gt_irrefl.
  destruct (tuple_gt e1 e2) eqn:G12.
  - intros [= <-]. rewrite (tuple_gt_asym _ _ G12).
    repeat split; auto; try discriminate.
    intros [= ->]. rewrite tuple_gt_irrefl in G12. discriminate.
  - destruct (tuple_gt e2 e1) eqn:G21; intros [= <-].
    + repeat split; auto; try discriminate.
      intros [= ->]. rewrite tuple_gt_irrefl in G21. discriminate.
    + repeat split; auto. intros _. f_equal. now apply tuple_gt_total.
Qed.

Lemma compare_hands_is_antisymmetric_witness :
  (1 = -1 \/ 1 = 0 \/ 1 = 1)
  /\ compare_hands junk_hand trips_hand = Some (- 1)
  /\ (1 = 0 <-> evaluate_hand trips_hand = evaluate_hand junk_hand)
  /\ compare_hands trips_hand trips_hand = Some 0.
Proof. apply (compare_hands_is_antisymmetric trips_hand junk_hand 1). reflexivity. Defined.

(** X: [compare_hands] is transitive: a hand that beats a hand that beats a
    third hand beats the third. *)
Theorem compare_hands_is_transitive (h1 h2 h3 : list card) :
  compare_hands h1 h2 = Some 1 ->
  compare_hands h2 h3 = Some 1 ->
  compare_hands h1 h3 = Some 1.
Proof.
  unfold compare_hands.
  destruct (evaluate_hand h1) as [e1|]; [|discriminate].
  destruct (evaluate_hand h2) as [e2|]; [|discriminate].
  destruct (evaluate_hand h3) as [e3|]; [|discriminate].
  destruct (tuple_gt e1 e2) eqn:G12;
    [|destruct (tuple_gt e2 e1); discriminate].
  destruct (tuple_gt e2 e3) eqn:G23;
    [|destruct (tuple_gt e3 e2); discriminate].
  intros _ _. now rewrite (tuple_gt_trans _ _ _ G12 G23).
Qed.

Lemma compare_hands_is_transitive_witness :
  compare_hands trips_hand junk_hand = Some 1.
Proof.
  apply (compare_hands_is_transitive trips_hand tie_hand_1 junk_hand); reflexivity.
Defined.

(** X: between two five-card hands the higher category wins, whatever the
    tie-breakers. *)
Theorem higher_category_wins (h1 h2 : list card) :
  length h1 = 5%nat -> length h2 = 5%nat ->
  hand_category h1 < hand_category h2 ->
  compare_hands h1 h2 = Some (-1) /\ compare_hands h2 h1 = Some 1.
Proof.
  intros L1 L2 Hlt.
  destruct (evaluate_hand_head h1 L1) as [t1 E1].
  destruct (evaluate_hand_head h2 L2) as [t2 E2].
  unfold compare_hands. rewrite E1, E2. simpl.
  assert ((hand_category h1 =? hand_category h2) = false) as ->
      by (apply Z.eqb_neq; lia).
  assert ((hand_category h2 =? hand_category h1) = false) as ->
      by (apply Z.eqb_neq; lia).
  assert ((hand_category h2 <? hand_category h1) = false) as ->
      by (apply Z.ltb_ge; lia).
  assert ((hand_category h1 <? hand_category h2) = true) as ->
      by (apply Z.ltb_lt; lia).
  split; reflexivity.
Qed.

Lemma higher_category_wins_witness :
  compare_hands junk_hand trips_hand = Some (-1)
  /\ compare_hands trips_hand junk_hand = Some 1.
Proof.
  apply (higher_category_wins junk_hand trips_hand); [reflexivity | reflexivity |].
  vm_compute. reflexivity.
Defined.

Lemma sorted_desc_idem (l : list Z) : sorted_desc (sorted_desc l) = sorted_desc l.
Proof.
  apply desc_perm_eq; try apply sorted_desc_desc. apply sorted_desc_perm.
Qed.

Lemma tuples_documented_on_sorted :
  forallb (fun rs => tuple_documented_on rs true && tuple_documented_on rs false)
          (desc_lists 5 rank_values) = true.
Proof. vm_compute. reflexivity. Qed.

(** X: on every five-card hand the tuple returned by [evaluate_hand] has the
    layout documented for its category, read on the sorted ranks of the
    hand. *)
Theorem evaluate_hand_tie_breakers (hand : list card) :
  length hand = 5%nat ->
  exists t,
    evaluate_hand hand = Some t
    /\ documented_tuple (map card_rank hand) t = true.
Proof.
  intros Hlen. pose proof tuples_documented_on_sorted as Hall.
  rewrite forallb_forall in Hall.
  specialize (Hall _ (sorted_ranks_enumerated hand Hlen)).
  apply andb_prop in Hall as [Ht Hf].
  unfold evaluate_hand. unfold tuple_documented_on in Ht, Hf.
  destruct (hand_is_flush hand).
  - destruct (evaluate_ranks _ true) as [t|]; [|discriminate].
    exists t. split; trivial.
    unfold documented_tuple in *. now rewrite sorted_desc_idem in Ht.
  - destruct (evaluate_ranks _ false) as [t|]; [|discriminate].
    exists t. split; trivial.
    unfold documented_tuple in *. now rewrite sorted_desc_idem in Hf.
Qed.

Lemma evaluate_hand_tie_breakers_witness :
  exists t,
    evaluate_hand tie_hand_1 = Some t
    /\ documented_tuple (map card_rank tie_hand_1) t = true.
Proof. apply (evaluate_hand_tie_breakers tie_hand_1). reflexivity. Defined.

(** ** The opponent's policy when no bet is pending *)

(** X: with nothing to call, [ai_bet_decision] on a five-card hand draws no
    float and answers bet or check: it bets with Trips or better and chips
    left, and with Two Pair after the draw (even with an empty bank); the
    bet is min(bank, max(2, pot // 4)), with 2 in place of pot // 4 when the
    pot is not positive, hence between 1 and the bank when the bank is
    positive; a check carries amount 0; [can_raise] plays no role. *)
Theorem ai_bet_decision_no_bet_pending (stage : stage_name) (hand : list card)
    (can_raise : bool) (tc ab p : Z) (m : Machine) :
  length hand = 5%nat ->
  tc <= 0 ->
  let k := hand_category hand in
  let size := Z.min ab (Z.max 2 (if 0 <? p then p / 4 else 2)) in
  exists act amount,
    ai_bet_decision stage hand can_raise tc ab p m = Ret (act, amount) m
    /\ ((3 <= k /\ 0 < ab) \/ (stage = Post /\ k = 2) ->
        act = Bet /\ amount = size)
    /\ (~ ((3 <= k /\ 0 < ab) \/ (stage = Post /\ k = 2)) ->
        act = Check /\ amount = 0)
    /\ (act = Bet -> 0 < ab -> 1 <= amount <= ab).
Proof.
  intros Hlen Htc k size.
  destruct (evaluate_hand_head hand Hlen) as [tb Hev]. fold k in Hev.
  unfold ai_bet_decision. rewrite Hev. cbn [try_some].
  unfold bind at 1. cbn [ret].
  assert ((0 <? tc) = false) as -> by (apply Z.ltb_ge; lia).
  fold size.
  assert (0 < ab -> 1 <= size <= ab) as Hsize by (unfold size; lia).
  assert (((3 <= k /\ 0 < ab) \/ (stage = Post /\ k = 2))
          <-> ((3 <=? k) && (0 <? ab)) || (is_post stage && (k =? 2)) = true) as Hiff.
  { rewrite orb_true_iff, !andb_true_iff, Z.leb_le, Z.ltb_lt, Z.eqb_eq.
    destruct stage; simpl; intuition congruence. }
  destruct ((3 <=? k) && (0 <? ab)) eqn:E1; simpl in Hiff.
  - exists Bet, size. split; [reflexivity|]. split; [auto|].
    split; [intros Hn; exfalso; apply Hn, Hiff; reflexivity | auto].
  - destruct (is_post stage && (k =? 2)) eqn:E2.
    + exists Bet, size. split; [reflexivity|]. split; [auto|].
      split; [intros Hn; exfalso; apply Hn, Hiff; reflexivity | auto].
    + exists Check, 0. split; [reflexivity|].
      split; [intros H; apply Hiff in H; discriminate|].
      split; [auto | discriminate].
Qed.

Lemma ai_bet_decision_no_bet_pending_witness :
  let k := hand_category trips_hand in
  let size := Z.min 50 (Z.max 2 (if 0 <? 10 then 10 / 4 else 2)) in
  exists act amount,
    ai_bet_decision Pre trips_hand true 0 50 10 (scenario []) = Ret (act, amount) (scenario [])
    /\ ((3 <= k /\ 0 < 50) \/ (Pre = Post /\ k = 2) ->
        act = Bet /\ amount = size)
    /\ (~ ((3 <= k /\ 0 < 50) \/ (Pre = Post /\ k = 2)) ->
        act = Check /\ amount = 0)
    /\ (act = Bet -> 0 < 50 -> 1 <= amount <= 50).
Proof.
  apply (ai_bet_decision_no_bet_pending Pre trips_hand true 0 50 10 (scenario []));
    [reflexivity | lia].
Defined.

(** ** Positions returned by the discard policy *)

Ltac positions_ok :=
  split; [repeat (apply NoDup_cons; [simpl; intuition discriminate|]); apply NoDup_nil|];
  split; [repeat (apply Forall_cons; [lia|]); apply Forall_nil|];
  split; [simpl; lia | reflexivity].

Lemma ai_choose_discards_valid (hand : list card) :
  length hand = 5%nat ->
  exists d,
    ai_choose_discards hand = Some d
    /\ NoDup d
    /\ Forall (fun i => 0 <= i < 5) d
    /\ (length d <= 3)%nat
    /\ rev (sorted_desc d) = d.
Proof.
  intros Hlen.
  destruct (evaluate_hand_head hand Hlen) as [tb Hev].
  destruct (Z.le_gt_cases 2 (hand_category hand)) as [Hk|Hk].
  { exists []. unfold ai_choose_discards. rewrite Hev.
    apply Z.leb_le in Hk. rewrite Hk. split; [reflexivity|]. positions_ok. }
  assert (Hone := one_pair_shape hand).
  unfold ai_choose_discards. rewrite Hev.
  apply Z.leb_gt in Hk. rewrite Hk.
  destruct (hand_category hand =? 1) eqn:E1.
  - apply Z.eqb_eq in E1. destruct (Hone E1) as (r0 & H2 & Hu).
    rewrite (_find_pair_rank_unique _ r0 H2 Hu).
    destruct (five_cards hand Hlen) as (c0 & c1 & c2 & c3 & c4 & ->).
    unfold occurrences in H2. cbn [map] in H2.
    unfold enumerate.
    change (map Z.of_nat (seq 0 (length (map card_rank [c0; c1; c2; c3; c4]))))
      with [0; 1; 2; 3; 4].
    cbn [map combine filter fst snd].
    destruct (Z.eqb_spec (card_rank c0) r0), (Z.eqb_spec (card_rank c1) r0),
      (Z.eqb_spec (card_rank c2) r0), (Z.eqb_spec (card_rank c3) r0),
      (Z.eqb_spec (card_rank c4) r0);
      repeat first [ rewrite count_occ_cons_eq in H2 by assumption
                   | rewrite count_occ_cons_neq in H2 by assumption ];
      cbn [count_occ] in H2; try discriminate H2;
      cbn [negb map fst]; (eexists; split; [reflexivity|]); positions_ok.
  - destruct (five_cards hand Hlen) as (c0 & c1 & c2 & c3 & c4 & ->).
    unfold enumerate.
    change (map Z.of_nat (seq 0 (length (map card_rank [c0; c1; c2; c3; c4]))))
      with [0; 1; 2; 3; 4].
    change (map Z.of_nat (seq 0 (length [c0; c1; c2; c3; c4]))) with [0; 1; 2; 3; 4].
    cbn [map combine filter fst snd].
    destruct (RANK_VALUE RQ <=? card_rank c0), (RANK_VALUE RQ <=? card_rank c1),
      (RANK_VALUE RQ <=? card_rank c2), (RANK_VALUE RQ <=? card_rank c3),
      (RANK_VALUE RQ <=? card_rank c4);
      cbn; (eexists; split; [reflexivity|]); positions_ok.
Qed.

(** X: on every five-card hand [ai_choose_discards] returns without raising;
    the positions it returns are distinct, lie in 0..4, are at most three
    and come in increasing order. *)
Theorem ai_choose_discards_positions (hand : list card) :
  length hand = 5%nat ->
  exists d,
    ai_choose_discards hand = Some d
    /\ NoDup d
    /\ Forall (fun i => 0 <= i < 5) d
    /\ (length d <= 3)%nat
    /\ rev (sorted_desc d) = d.
Proof. exact (ai_choose_discards_valid hand). Qed.

Lemma ai_choose_discards_positions_witness :
  exists d,
    ai_choose_discards junk_hand = Some d
    /\ NoDup d
    /\ Forall (fun i => 0 <= i < 5) d
    /\ (length d <= 3)%nat
    /\ rev (sorted_desc d) = d.
Proof. apply (ai_choose_discards_positions junk_hand). reflexivity. Defined.

(** ** Reading numbers and positions from the console *)

Section WpxRules.
Context {A B : Type}.
Variables (Q : B -> Machine -> Prop) (Eo Ex F : Machine -> Prop).

Lemma wpx_bind (c : M A) (k : A -> M B) (m : Machine) :
  wpx (bind c k) Q Eo Ex F m = wpx c (fun a m' => wpx (k a) Q Eo Ex F m') Eo Ex F m.
Proof. unfold wpx, bind. destruct (c m); reflexivity. Qed.

Lemma wpx_ret (b : B) (m : Machine) : wpx (ret b) Q Eo Ex F m = Q b m.
Proof. reflexivity. Qed.

Lemma wpx_gets (f : Machine -> B) (m : Machine) : wpx (gets f) Q Eo Ex F m = Q (f m) m.
Proof. reflexivity. Qed.

Lemma wpx_throw (m : Machine) : wpx throw Q Eo Ex F m = Ex m.
Proof. reflexivity. Qed.

Lemma wpx_out_of_fuel (m : Machine) : wpx out_of_fuel Q Eo Ex F m = F m.
Proof. reflexivity. Qed.

Lemma wpx_try_some (o : option B) (m : Machine) :
  wpx (try_some o) Q Eo Ex F m = match o with Some b => Q b m | None => Ex m end.
Proof. destruct o; reflexivity. Qed.
End WpxRules.

Lemma wpx_modify (Q : unit -> Machine -> Prop) (Eo Ex F : Machine -> Prop)
    (f : Machine -> Machine) (m : Machine) :
  wpx (modify f) Q Eo Ex F m = Q tt (f m).
Proof. reflexivity. Qed.

Lemma wpx_mono {A} (c : M A) (Q Q' : A -> Machine -> Prop)
    (Eo Eo' Ex Ex' F F' : Machine -> Prop) (m : Machine) :
  wpx c Q Eo Ex F m ->
  (forall a m', Q a m' -> Q' a m') ->
  (forall m', Eo m' -> Eo' m') ->
  (forall m', Ex m' -> Ex' m') ->
  (forall m', F m' -> F' m') ->
  wpx c Q' Eo' Ex' F' m.
Proof. unfold wpx. destruct (c m); auto. Qed.

Lemma wpx_of_ret {A} (c : M A) (Q : A -> Machine -> Prop) (Eo Ex F : Machine -> Prop)
    (m m' : Machine) (a : A) :
  c m = Ret a m' -> Q a m' -> wpx c Q Eo Ex F m.
Proof. intros Hc HQ. unfold wpx. now rewrite Hc. Qed.

Ltac xstep :=
  first
    [ rewrite wpx_bind
    | rewrite wpx_ret
    | rewrite wpx_gets
    | rewrite wpx_modify
    | rewrite wpx_throw
    | rewrite wpx_out_of_fuel
    | rewrite wpx_try_some
    | progress cbv beta ].

Ltac xbranch :=
  match goal with
  | |- wpx (if ?b then _ else _) _ _ _ _ _ => destruct b eqn:?
  | |- wpx (match ?x with _ => _ end) _ _ _ _ _ => destruct x eqn:?
  | |- match ?x with _ => _ end => destruct x eqn:?
  end.

Ltac xinput :=
  match goal with
  | |- wpx input _ _ _ _ ?m =>
      unfold wpx at 1, input;
      let line := fresh "line" in
      let rest := fresh "rest" in
      let Hin := fresh "Hin" in
      destruct (stdin (world m)) as [|line rest] eqn:Hin; [|cbv beta]
  end.

Lemma get_positive_int_outcomes (mx : option Z) (fuel : nat) :
  forall (m : Machine),
    (lines_left m < fuel)%nat ->
    wpx (get_positive_int fuel mx)
        (fun v m' => quiet m m' /\ (lines_left m' < lines_left m)%nat /\ 0 < v
                     /\ match mx with Some x => v <= x | None => True end)
        (fun m' => quiet m m' /\ stdin (world m') = [])
        (quiet m) (fun _ => False) m.
Proof.
  induction fuel as [|fuel IH]; intros m Hf; [lia|].
  cbn [get_positive_int]. xstep. xinput; [split; [apply quiet_refl | assumption]|].
  repeat (xstep || xbranch || (progress (autounfold with prims)));
    try (eapply wpx_mono; [apply IH; inv_solve| | | |tauto];
         intros; inv_solve; destruct mx; tauto).
  all: inv_solve; destruct mx; bools; lia.
Qed.

(** X: [get_positive_int], given fuel for the lines on the input, either
    returns a number above 0 and at most [max_value] after reading at least
    one line, or stops at the end of the input, or raises on a line that
    [isdigit] accepts and [int] rejects; the game state and the round
    variables are as before in every case. *)
Theorem get_positive_int_is_positive_and_bounded (mx : option Z) (fuel : nat)
    (m : Machine) :
  (lines_left m < fuel)%nat ->
  match get_positive_int fuel mx m with
  | Ret v m' =>
      0 < v /\ (forall x, mx = Some x -> v <= x)
      /\ game m' = game m /\ vars m' = vars m
      /\ (lines_left m' < lines_left m)%nat
  | Eof m' => game m' = game m /\ vars m' = vars m /\ stdin (world m') = []
  | Exn m' => game m' = game m /\ vars m' = vars m
  | OutOfFuel _ => False
  end.
Proof.
  intros Hf. pose proof (get_positive_int_outcomes mx fuel m Hf) as H.
  unfold wpx, quiet in H.
  destruct (get_positive_int fuel mx m); try tauto.
  destruct H as ((Hg & Hv & _) & Hl & Hpos & Hmx).
  repeat split; trivial. intros x ->. exact Hmx.
Qed.

Lemma get_positive_int_is_positive_and_bounded_witness :
  match get_positive_int 4 (Some 45) (scenario ["abc"; "0"; " 41 "]%string) with
  | Ret v m' =>
      0 < v /\ (forall x, Some 45 = Some x -> v <= x)
      /\ game m' = game (scenario ["abc"; "0"; " 41 "]%string)
      /\ vars m' = vars (scenario ["abc"; "0"; " 41 "]%string)
      /\ (lines_left m' < lines_left (scenario ["abc"; "0"; " 41 "]%string))%nat
  | Eof m' => game m' = game (scenario ["abc"; "0"; " 41 "]%string)
              /\ vars m' = vars (scenario ["abc"; "0"; " 41 "]%string)
              /\ stdin (world m') = []
  | Exn m' => game m' = game (scenario ["abc"; "0"; " 41 "]%string)
              /\ vars m' = vars (scenario ["abc"; "0"; " 41 "]%string)
  | OutOfFuel _ => False
  end.
Proof.
  apply (get_positive_int_is_positive_and_bounded (Some 45) 4
           (scenario ["abc"; "0"; " 41 "]%string)).
  vm_compute. lia.
Defined.

Example get_positive_int_skips_bad_lines :
  exists m',
    get_positive_int 4 (Some 45) (scenario ["abc"; "0"; "46"; " 41 "]%string)
    = Ret 41 m'
    /\ stdout (world m')
       = [Notice "Maximum allowed is max_value."; Notice "Number must be above 0.";
          Notice "Please enter a positive whole number."].
Proof. eexists. vm_compute. split; reflexivity. Qed.

Lemma dedup_spec (idxs : list Z) :
  forall seen,
    NoDup (dedup seen idxs)
    /\ forall x, In x (dedup seen idxs) -> In x idxs /\ ~ In x seen.
Proof.
  induction idxs as [|i rest IH]; intros seen; simpl.
  - split; [constructor | contradiction].
  - destruct (mem i seen) eqn:E.
    + destruct (IH seen) as [Hnd Hin]. split; trivial.
      intros x Hx. destruct (Hin x Hx). auto.
    + destruct (IH (i :: seen)) as [Hnd Hin]. split.
      * constructor; trivial. intros Hi. destruct (Hin i Hi) as [_ Hn].
        apply Hn. now left.
      * intros x [<-|Hx].
        -- split; [now left | now apply mem_false].
        -- destruct (Hin x Hx) as [H1 H2]. split; [now right|].
           intros Hs. apply H2. now right.
Qed.

Lemma existsb_false_Forall (f : Z -> bool) (l : list Z) :
  existsb f l = false -> Forall (fun x => f x = false) l.
Proof.
  induction l as [|x l IH]; simpl; intros H; constructor;
    apply orb_false_elim in H; tauto.
Qed.

Lemma NoDup_map_shift (l : list Z) : NoDup l -> NoDup (map (fun i => i - 1) l).
Proof.
  induction 1 as [|x l Hx Hl IH]; simpl; constructor; trivial.
  intros Hin. apply in_map_iff in Hin as (y & Hy & Hin).
  assert (y = x) by lia. now subst y.
Qed.

Lemma clean_indices_valid (num_cards : Z) (idxs : list Z) :
  existsb (fun i => i <=? 0) idxs = false ->
  existsb (fun i => num_cards <? i) idxs = false ->
  (3 <? length (dedup [] idxs))%nat = false ->
  let d := map (fun i => i - 1) (dedup [] idxs) in
  NoDup d /\ (length d <= 3)%nat /\ Forall (fun i => 0 <= i < num_cards) d.
Proof.
  intros Hlow Hhigh Hlen d. destruct (dedup_spec idxs []) as [Hnd Hin].
  apply existsb_false_Forall in Hlow, Hhigh. rewrite Forall_forall in Hlow, Hhigh.
  apply Nat.ltb_ge in Hlen.
  split; [|split].
  - unfold d. now apply NoDup_map_shift.
  - unfold d. now rewrite length_map.
  - unfold d. apply Forall_forall. intros y Hy. apply in_map_iff in Hy as (x & <- & Hx).
    destruct (Hin x Hx) as [Hx' _].
    specialize (Hlow x Hx'). specialize (Hhigh x Hx'). cbv beta in Hlow, Hhigh.
    apply Z.leb_gt in Hlow. apply Z.ltb_ge in Hhigh. lia.
Qed.

Lemma read_discard_indices_outcomes (num_cards : Z) (fuel : nat) :
  forall (m : Machine),
    (lines_left m < fuel)%nat ->
    wpx (read_discard_indices fuel num_cards)
        (fun d m' => quiet m m' /\ (lines_left m' < lines_left m)%nat
                     /\ NoDup d /\ (length d <= 3)%nat
                     /\ Forall (fun i => 0 <= i < num_cards) d)
        (fun m' => quiet m m' /\ stdin (world m') = [])
        (fun _ => False) (fun _ => False) m.
Proof.
  induction fuel as [|fuel IH]; intros m Hf; [lia|].
  cbn [read_discard_indices]. xstep. xinput; [split; [apply quiet_refl | assumption]|].
  repeat (xstep || xbranch || (progress (autounfold with prims)));
    try (eapply wpx_mono; [apply IH; inv_solve| | |tauto|tauto];
         intros; inv_solve).
  all: split; [inv_solve|]; split; [inv_solve|];
    first [ apply (clean_indices_valid num_cards); assumption
          | split; [constructor|]; split; [simpl; lia | constructor] ].
Qed.

Lemma get_discard_indices_outcomes (num_cards : Z) (fuel : nat) (m : Machine) :
  (lines_left m < fuel)%nat ->
  wpx (get_discard_indices fuel num_cards)
      (fun d m' => NoDup d /\ (length d <= 3)%nat
                   /\ Forall (fun i => 0 <= i < num_cards) d
                   /\ quiet m m' /\ (lines_left m' < lines_left m)%nat)
      (fun m' => quiet m m' /\ stdin (world m') = [])
      (fun _ => False) (fun _ => False) m.
Proof.
  intros Hf. unfold get_discard_indices, print. xstep. xstep.
  eapply wpx_mono; [apply read_discard_indices_outcomes | | |tauto|tauto].
  - inv_solve.
  - cbv beta. intros d m' (Hq & Hl & Hnd & Hlen & Hr).
    split; [trivial|]. split; [trivial|]. split; [trivial|]. inv_solve.
  - cbv beta. intros m' (Hq & He). split; [inv_solve | trivial].
Qed.

(** X: [get_discard_indices] never raises: it returns, after reading at
    least one line, at most three distinct zero-based positions, each below
    [num_cards], or it stops at the end of the input; the game state is as
    before. *)
Theorem get_discard_indices_are_valid (num_cards : Z) (fuel : nat) (m : Machine) :
  (lines_left m < fuel)%nat ->
  match get_discard_indices fuel num_cards m with
  | Ret d m' =>
      NoDup d /\ (length d <= 3)%nat /\ Forall (fun i => 0 <= i < num_cards) d
      /\ game m' = game m /\ (lines_left m' < lines_left m)%nat
  | Eof m' => game m' = game m /\ stdin (world m') = []
  | Exn _ => False
  | OutOfFuel _ => False
  end.
Proof.
  intros Hf. pose proof (get_discard_indices_outcomes num_cards fuel m Hf) as H.
  unfold wpx, quiet in H.
  destruct (get_discard_indices fuel num_cards m); tauto.
Qed.

Lemma get_discard_indices_are_valid_witness :
  match get_discard_indices 3 5 (scenario ["9"; "2 2 5"]%string) with
  | Ret d m' =>
      NoDup d /\ (length d <= 3)%nat /\ Forall (fun i => 0 <= i < 5) d
      /\ game m' = game (scenario ["9"; "2 2 5"]%string)
      /\ (lines_left m' < lines_left (scenario ["9"; "2 2 5"]%string))%nat
  | Eof m' => game m' = game (scenario ["9"; "2 2 5"]%string)
              /\ stdin (world m') = []
  | Exn _ => False
  | OutOfFuel _ => False
  end.
Proof.
  apply (get_discard_indices_are_valid 5 3 (scenario ["9"; "2 2 5"]%string)).
  vm_compute. lia.
Defined.

Example get_discard_indices_dedups :
  exists m', get_discard_indices 3 5 (scenario ["9"; "2 2 5"]%string) = Ret [1; 4] m'.
Proof. eexists. vm_compute. reflexivity. Qed.

(** ** The draw *)

Lemma desc_NoDup_strict (l : list Z) : desc l -> NoDup l -> strict_desc l.
Proof.
  induction l as [|x l IH]; simpl; intros Hd Hnd; [exact I|].
  destruct Hd as [Hx Hd]. inversion Hnd as [|? ? Hnx Hnl]; subst.
  split; [|now apply IH].
  rewrite Forall_forall in *. intros y Hy. specialize (Hx y Hy).
  assert (y <> x) by (intros ->; contradiction). lia.
Qed.

Lemma sorted_desc_strict (l : list Z) : NoDup l -> strict_desc (sorted_desc l).
Proof.
  intros H. apply desc_NoDup_strict; [apply sorted_desc_desc|].
  eapply Permutation_NoDup; [symmetry; apply sorted_desc_perm | exact H].
Qed.

Lemma pop_index_in_range (hand : list card) (i : Z) :
  0 <= i < Z.of_nat (length hand) ->
  exists c h',
    pop_index hand i = Some h'
    /\ Permutation hand (c :: h')
    /\ length hand = S (length h').
Proof.
  intros Hi. unfold pop_index.
  assert ((i <? 0) = false) as -> by (apply Z.ltb_ge; lia).
  assert (((0 <=? i) && (i <? Z.of_nat (length hand))) = true) as ->
      by (apply andb_true_iff; split; [apply Z.leb_le | apply Z.ltb_lt]; lia).
  assert (Z.to_nat i < length hand)%nat as Hn by lia.
  destruct (nth_error hand (Z.to_nat i)) as [c|] eqn:Hc;
    [|apply nth_error_None in Hc; lia].
  apply nth_error_split in Hc as (l1 & l2 & Hhand & Hl1).
  exists c, (l1 ++ l2).
  assert (firstn (Z.to_nat i) hand = l1) as ->.
  { rewrite Hhand, <- Hl1. rewrite firstn_app, Nat.sub_diag, firstn_all. simpl.
    apply app_nil_r. }
  assert (skipn (S (Z.to_nat i)) hand = l2) as ->.
  { rewrite Hhand, <- Hl1.
    replace (S (length l1)) with (length (l1 ++ [c])) by (rewrite length_app; simpl; lia).
    replace (l1 ++ c :: l2) with ((l1 ++ [c]) ++ l2) by (now rewrite <- app_assoc).
    rewrite skipn_app, Nat.sub_diag, skipn_all. reflexivity. }
  split; [reflexivity|]. split.
  - rewrite Hhand. symmetry. apply Permutation_middle.
  - rewrite Hhand, !length_app. simpl. lia.
Qed.

Lemma pop_indices_in_range (idxs : list Z) :
  forall hand : list card,
    strict_desc idxs ->
    Forall (fun i => 0 <= i < Z.of_nat (length hand)) idxs ->
    exists removed h',
      pop_indices hand idxs = Some h'
      /\ Permutation hand (removed ++ h')
      /\ length removed = length idxs
      /\ length hand = (length idxs + length h')%nat.
Proof.
  induction idxs as [|i idxs IH]; intros hand Hs Hr; simpl.
  - exists [], hand. auto.
  - destruct Hs as [Hlt Hs]. inversion Hr as [|? ? Hi Hr']; subst.
    destruct (pop_index_in_range hand i Hi) as (c & h1 & Hpop & Hperm & Hlen).
    rewrite Hpop.
    destruct (IH h1 Hs) as (removed & h' & Hpops & Hperm' & Hlr & Hlen').
    { rewrite Forall_forall in *. intros j Hj.
      specialize (Hlt j Hj). specialize (Hr' j Hj). lia. }
    exists (c :: removed), h'. split; [exact Hpops|]. split; [|split].
    + rewrite Hperm. simpl. now apply perm_skip.
    + simpl. now rewrite Hlr.
    + lia.
Qed.
Lemma draw_phase_outcomes (fuel : nat) (m : Machine) :
  length (player_hand (game m)) = 5%nat ->
  length (ai_hand (game m)) = 5%nat ->
  (6 <= length (deck (game m)))%nat ->
  (lines_left m < fuel)%nat ->
  wpx (draw_phase fuel)
      (fun _ m' =>
         length (player_hand (game m')) = 5%nat
         /\ length (ai_hand (game m')) = 5%nat
         /\ (exists discarded,
                (length discarded <= 6)%nat
                /\ Permutation (player_hand (game m') ++ ai_hand (game m')
                                ++ deck (game m') ++ discarded)
                               (player_hand (game m) ++ ai_hand (game m)
                                ++ deck (game m)))
         /\ stakes m' = stakes m /\ vars m' = vars m
         /\ (lines_left m' < lines_left m)%nat)
      (fun m' => game m' = game m /\ stdin (world m') = [])
      (fun _ => False) (fun _ => False) m.
Proof.
  intros Hph Hah Hdeck Hf. unfold draw_phase.
  repeat first [ xstep | progress (autounfold with prims) ].
  eapply wpx_mono; [apply get_discard_indices_outcomes | | |tauto|tauto];
    [inv_solve| |cbv beta; intros m' (Hq & He); split; [inv_solve|trivial]].
  cbv beta. intros idxs m1 (Hnd & Hlen & Hrange & Hq & Hl).
  rewrite Hph in Hrange.
  destruct (pop_indices_in_range (sorted_desc idxs) (player_hand (game m)))
    as (removed & h' & Hpops & Hperm & Hlr & Hlh).
  { now apply sorted_desc_strict. }
  { rewrite Hph. eapply Permutation_Forall; [symmetry; apply sorted_desc_perm|].
    exact Hrange. }
  rewrite sorted_desc_length in Hlr, Hlh.
  xstep. rewrite wpx_try_some, Hpops.
  repeat first [ xstep | progress (autounfold with prims) ].
  destruct Hq as (Hg1 & Hv1 & _ & _).
  cbn [game vars printed with_world] in Hg1, Hv1.
  unfold lines_left in Hl. cbn [world printed with_world stdin] in Hl.
  assert (Z.to_nat (5 - Z.of_nat (length h')) = length idxs) as -> by lia.
  set (dk := deck (game m)) in *.
  match goal with |- wpx (deal _) _ _ _ _ ?m2 =>
    destruct (deal_outcome (length idxs) m2) as [Hdeal _];
    destruct Hdeal as (m3 & Hrun & Hdeck3 & Hsame3);
      [cbn [game with_game deck]; rewrite Hg1; fold dk; lia|]
  end.
  cbn [game with_game deck] in Hrun, Hdeck3. rewrite Hg1 in Hrun, Hdeck3.
  fold dk in Hrun, Hdeck3.
  eapply wpx_of_ret; [exact Hrun|]. clear Hrun.
  set (x := (length dk - length idxs)%nat) in *.
  destruct Hsame3 as (Hst3 & Hph3 & Hah3 & _ & Hv3 & Hw3).
  unfold stakes in Hst3.
  cbn [game vars world with_game player_bank ai_bank pot player_hand ai_hand]
    in Hst3, Hph3, Hah3, Hv3, Hw3.
  rewrite Hg1 in Hst3, Hah3.
  repeat first [ xstep | progress (autounfold with prims) ].
  cbn [game printed with_world with_game ai_hand]. rewrite Hah3.
  destruct (ai_choose_discards_valid (ai_hand (game m)) Hah)
    as (d2 & Hd2 & Hnd2 & Hr2 & Hl2 & _).
  rewrite Hd2.
  destruct (pop_indices_in_range (sorted_desc d2) (ai_hand (game m)))
    as (removed2 & h2 & Hpops2 & Hperm2 & Hlr2 & Hlh2).
  { now apply sorted_desc_strict. }
  { rewrite Hah. eapply Permutation_Forall; [symmetry; apply sorted_desc_perm|].
    exact Hr2. }
  rewrite sorted_desc_length in Hlr2, Hlh2.
  xstep. rewrite wpx_try_some, Hpops2.
  repeat first [ xstep | progress (autounfold with prims) ].
  assert (Z.to_nat (5 - Z.of_nat (length h2)) = length d2) as -> by lia.
  match goal with |- wpx (deal _) _ _ _ _ ?m4 =>
    destruct (deal_outcome (length d2) m4) as [Hdeal _];
    destruct Hdeal as (m5 & Hrun & Hdeck5 & Hsame5);
      [cbn [game with_game printed with_world deck]; rewrite Hdeck3, length_firstn; lia|]
  end.
  cbn [game with_game printed with_world deck] in Hrun, Hdeck5.
  rewrite Hdeck3 in Hrun, Hdeck5.
  eapply wpx_of_ret; [exact Hrun|]. clear Hrun.
  set (y := (length (firstn x dk) - length d2)%nat) in *.
  destruct Hsame5 as (Hst5 & Hph5 & Hah5 & _ & Hv5 & Hw5).
  unfold stakes in Hst5.
  cbn [game vars world with_game printed with_world player_bank ai_bank pot
       player_hand ai_hand] in Hst5, Hph5, Hah5, Hv5, Hw5.
  repeat first [ xstep | progress (autounfold with prims) ].
  apply (f_equal stdin) in Hw3, Hw5. cbn [stdin] in Hw5.
  unfold stakes, lines_left.
  cbn [game vars world with_game printed with_world player_bank ai_bank pot
       player_hand ai_hand deck stdin].
  rewrite Hph5, Hdeck5, Hst5, Hst3, Hv5, Hv3, Hv1, Hw5, Hw3.
  assert (length (rev (skipn x dk)) = length idxs) as Hn1
      by (rewrite length_rev, length_skipn; unfold x; lia).
  assert (length (rev (skipn y (firstn x dk))) = length d2) as Hn2
      by (rewrite length_rev, length_skipn; unfold y;
          rewrite length_firstn; unfold x; lia).
  split; [rewrite length_app, Hn1; lia|].
  split; [rewrite length_app, Hn2; lia|].
  split; [|tauto].
  exists (removed ++ removed2). split; [rewrite length_app; lia|].
  apply (Permutation_count_occ card_eq_dec). intros c.
  pose proof (proj1 (Permutation_count_occ card_eq_dec _ _) Hperm c) as C1.
  pose proof (proj1 (Permutation_count_occ card_eq_dec _ _) Hperm2 c) as C2.
  pose proof (f_equal (fun l => count_occ card_eq_dec l c) (firstn_skipn x dk)) as C3.
  pose proof (f_equal (fun l => count_occ card_eq_dec l c)
                (firstn_skipn y (firstn x dk))) as C4.
  cbv beta in C3, C4.
  rewrite !count_occ_app in *. rewrite !count_occ_rev. lia.
Qed.
(** X: from two hands of five cards and a deck of at least six cards,
    [draw_phase] never raises: it returns with two hands of five cards again
    (or stops at the end of the input with the game state untouched); the
    cards of hands and deck after, with at most six discarded ones, are the
    cards of hands and deck before, so no card appears twice if none did;
    banks, pot and round variables are unchanged. *)
Theorem draw_phase_restores_both_hands (fuel : nat) (m : Machine) :
  length (player_hand (game m)) = 5%nat ->
  length (ai_hand (game m)) = 5%nat ->
  (6 <= length (deck (game m)))%nat ->
  (lines_left m < fuel)%nat ->
  match draw_phase fuel m with
  | Ret _ m' =>
      length (player_hand (game m')) = 5%nat
      /\ length (ai_hand (game m')) = 5%nat
      /\ (exists discarded,
             (length discarded <= 6)%nat
             /\ Permutation (player_hand (game m') ++ ai_hand (game m')
                             ++ deck (game m') ++ discarded)
                            (player_hand (game m) ++ ai_hand (game m)
                             ++ deck (game m)))
      /\ (NoDup (player_hand (game m) ++ ai_hand (game m) ++ deck (game m)) ->
          NoDup (player_hand (game m') ++ ai_hand (game m') ++ deck (game m')))
      /\ stakes m' = stakes m /\ vars m' = vars m
      /\ (lines_left m' < lines_left m)%nat
  | Eof m' => game m' = game m /\ stdin (world m') = []
  | Exn _ => False
  | OutOfFuel _ => False
  end.
Proof.
  intros Hph Hah Hdeck Hf.
  pose proof (draw_phase_outcomes fuel m Hph Hah Hdeck Hf) as H.
  unfold wpx in H. destruct (draw_phase fuel m) as [[] m'|m'|m'|m']; trivial.
  destruct H as (H1 & H2 & (discarded & Hld & Hperm) & H3 & H4 & H5).
  repeat split; trivial.
  - exists discarded. auto.
  - intros Hnd. apply (Permutation_NoDup (Permutation_sym Hperm)) in Hnd.
    rewrite !app_assoc in Hnd. apply NoDup_app_remove_r in Hnd.
    now rewrite <- !app_assoc in Hnd.
Qed.

Lemma draw_phase_restores_both_hands_witness :
  match draw_phase 2 draw_table with
  | Ret _ m' =>
      length (player_hand (game m')) = 5%nat
      /\ length (ai_hand (game m')) = 5%nat
      /\ (exists discarded,
             (length discarded <= 6)%nat
             /\ Permutation (player_hand (game m') ++ ai_hand (game m')
                             ++ deck (game m') ++ discarded)
                            (player_hand (game draw_table) ++ ai_hand (game draw_table)
                             ++ deck (game draw_table)))
      /\ (NoDup (player_hand (game draw_table) ++ ai_hand (game draw_table)
                 ++ deck (game draw_table)) ->
          NoDup (player_hand (game m') ++ ai_hand (game m') ++ deck (game m')))
      /\ stakes m' = stakes draw_table /\ vars m' = vars draw_table
      /\ (lines_left m' < lines_left draw_table)%nat
  | Eof m' => game m' = game draw_table /\ stdin (world m') = []
  | Exn _ => False
  | OutOfFuel _ => False
  end.
Proof.
  apply (draw_phase_restores_both_hands 2 draw_table);
    [reflexivity | reflexivity | vm_compute; lia | vm_compute; lia].
Defined.

Example draw_phase_replaces_the_chosen_cards :
  exists m',
    draw_phase 2 draw_table = Ret tt m'
    /\ player_hand (game m')
       = [(RJ, Diamond); (R2, Heart); (R5, Spade); (RA, Club); (RA, Diamond)]
    /\ ai_hand (game m')
       = [(R7, Spade); (R7, Heart); (R7, Diamond); (R2, Club); (R9, Spade)]
    /\ length (deck (game m')) = 40%nat.
Proof. eexists. vm_compute. repeat split; reflexivity. Qed.
